(** * simpleperf: a shallow embedding of [simplePerf.py]

    The program is a TCP throughput meter.  Its server side
    ([server] / [handle_client]) counts the bytes it receives until the
    peer sends the marker [b'BYE']; its client side ([client]) streams
    filler bytes for a byte budget or for a duration, prints interval
    reports ([print_interval_stats]) and a final summary; [main] picks the
    role from the parsed arguments.

    Modelling choices, all local to this file:
    - Python [int] is [Z]; [bytes] is [list byte]; [str] is [string].
    - [time.time()] returns a float.  Clock readings and the quotients
      derived from them are modelled as exact rationals [Q]; the rounding
      of binary64 arithmetic and the [.1f] formatting of printed numbers
      are not modelled.
    - A socket is driven by a script: the segments the peer delivers, after
      which the peer has closed and [recv] returns [b''].  [sendall] is
      taken to succeed.
    - [while] loops take fuel; [None] means that the loop is still running
      when the fuel is spent.
    - [interval] comes from [check_positive], so the division by it in
      [print_interval_stats] is defined; the two divisions by an elapsed
      time raise [ZeroDivisionError] when no time has passed. *)

From Stdlib Require Import ZArith QArith Qfield Lqa List String Ascii Bool Lia.
From Stdlib Require Import Strings.Byte.
Import ListNotations.

Local Open Scope string_scope.
Local Open Scope list_scope.
Local Open Scope Z_scope.

(** ** Bytes *)

Definition bytes := list byte.

Fixpoint bytes_eqb (a b : bytes) : bool :=
  match a, b with
  | [], [] => true
  | x :: a', y :: b' => Byte.eqb x y && bytes_eqb a' b'
  | _, _ => false
  end.

(** [len(data)] *)
Definition len (data : bytes) : Z := Z.of_nat (List.length data).

(** [b'BYE'] and [b'ACK: BYE'] *)
Definition BYE : bytes := [x42; x59; x45].
Definition ACK_BYE : bytes := [x41; x43; x4b; x3a; x20; x42; x59; x45].

(** [b'0' * n] *)
Definition zeros (n : Z) : bytes := repeat x30 (Z.to_nat n).

(** ** Exceptions and outcomes *)

Inductive exn :=
| ConnectionRefusedError
| ZeroDivisionError.

Inductive outcome (A : Type) :=
| Returned (a : A)
| Raised (e : exn)
| Blocked.
Arguments Returned {A} a.
Arguments Raised {A} e.
Arguments Blocked {A}.

(** ** The server side: [handle_client] *)

Module Server.

(** The accepted socket: what is still to arrive from the peer (in the
    order and segmentation in which the network delivers it; the peer has
    closed once the list is empty) and what was sent back. *)
Record conn := mkConn {
  inbox : list bytes;
  outbox : list bytes
}.

(** [conn.recv(bufsize)]: at most [bufsize] bytes of the next segment;
    [b''] once the peer has closed. *)
Definition recv (bufsize : nat) (c : conn) : bytes * conn :=
  match inbox c with
  | [] => ([], c)
  | seg :: rest =>
      if (List.length seg <=? bufsize)%nat
      then (seg, mkConn rest (outbox c))
      else (firstn bufsize seg, mkConn (skipn bufsize seg :: rest) (outbox c))
  end.

(** [conn.sendall(data)] *)
Definition sendall (data : bytes) (c : conn) : conn :=
  mkConn (inbox c) (outbox c ++ [data]).

(** The receive loop of [handle_client] (lines 108-113):
<<
    while True:
        data = conn.recv(1000)
        total_received += len(data)
        if data == b'BYE':
            conn.sendall(b'ACK: BYE')
            break
>>
    The result is [total_received] at the [break]. *)
Fixpoint recv_loop (fuel : nat) (c : conn) (total_received : Z)
  : option (Z * conn) :=
  match fuel with
  | O => None
  | S fuel' =>
      let (data, c1) := recv 1000 c in
      let total_received := total_received + len data in
      if bytes_eqb data BYE
      then Some (total_received, sendall ACK_BYE c1)
      else recv_loop fuel' c1 total_received
  end.

(** The two lines [handle_client] prints at the end; the numbers are the
    values handed to the [.1f] formatter. *)
Inductive line :=
| Connected (client_ip : string) (client_port : Z)
            (server_ip : string) (server_port : Z)
| Header
| Stats (addr : string * Z) (elapsed_time total_received : Q)
        (format : string) (bandwidth : Q).

(** Lines 119-125: conversion of the byte count to the display unit. *)
Definition convert_total (format : string) (total_received : Q) : Q :=
  if String.eqb format "KB" then total_received / 1000
  else if String.eqb format "MB" then total_received / 1000000
  else total_received.

Definition convert_bandwidth (format : string) (bandwidth : Q) : Q :=
  if String.eqb format "KB" then bandwidth / 1000
  else if String.eqb format "MB" then bandwidth / 1000000
  else bandwidth.

(** [handle_client(conn, addr, format)], lines 98-129.  [start_time] and
    [end_time] are the two readings of [time.time()]; [sockname] is what
    [conn.getsockname()] returns. *)
Definition handle_client (fuel : nat) (start_time end_time : Q)
    (sockname : string * Z) (c : conn) (addr : string * Z) (format : string)
  : option (outcome (list line * conn)) :=
  let total_received := 0 in
  match recv_loop fuel c total_received with
  | None => None
  | Some (total_received, c') =>
      let elapsed_time := (end_time - start_time)%Q in
      if Qeq_bool elapsed_time 0 then Some (Raised ZeroDivisionError)
      else
        let bandwidth := (inject_Z total_received / elapsed_time)%Q in
        Some (Returned
                ([Connected (fst addr) (snd addr) (fst sockname) (snd sockname);
                  Header;
                  Stats addr elapsed_time
                        (convert_total format (inject_Z total_received))
                        format
                        (convert_bandwidth format bandwidth)], c'))
  end.

(** The bytes of a list of segments. *)
Definition total_len (segs : list bytes) : Z :=
  fold_right (fun seg acc => len seg + acc) 0 segs.

(** A payload segment that [recv(1000)] hands over whole and that the loop
    does not take for the marker. *)
Definition plain (seg : bytes) : Prop :=
  (List.length seg <= 1000)%nat /\ seg <> BYE.

End Server.

(** ** The client side: [print_interval_stats] and [client] *)

Module Client.

(** What a session prints; the numbers are the values handed to the
    [.1f] formatter. *)
Inductive line :=
| Connecting (connection_id : Z) (server_ip : string) (port : Z)
| Connected (connection_id : Z) (server_ip : string) (port : Z)
| IntervalStats (connection_id : Z) (client_ip : string) (client_port : Z)
                (interval_elapsed_time elapsed_time interval_transfer : Q)
                (format : string) (interval_bandwidth : Q)
| Rule
| Header
| Summary (client_ip : string) (client_port : Z)
          (elapsed_time total_sent : Q) (format : string) (bandwidth : Q).

(** What a session does to the outside world, in program order. *)
Inductive event :=
| Connect (server_ip : string) (port : Z)
| SendStart (start_time : Q)          (* s.sendall(f'START {start_time}\n'.encode()) *)
| Sendall (data : bytes)
| Sleep (seconds : Z)
| Print (l : line).

(** The world a session runs in.  [clock n] is what the [n]-th call of
    [time.time()] in this session returns and [ticks] counts the calls so
    far; [trace] is the session's output so far;
    [fn_prev_total_sent] is the function attribute
    [print_interval_stats.prev_total_sent] set at line 176, the only
    process-wide mutable datum of the module. *)
Record world := mkWorld {
  clock : nat -> Q;
  ticks : nat;
  trace : list event;
  fn_prev_total_sent : Z
}.

(** A small state monad over [world]. *)
Definition M (A : Type) : Type := world -> A * world.

Definition ret {A} (a : A) : M A := fun w => (a, w).

Definition bind {A B} (m : M A) (k : A -> M B) : M B :=
  fun w => let (a, w') := m w in k a w'.

Declare Scope world_scope.
Delimit Scope world_scope with world.
Notation "x <- m ;; k" := (bind m (fun x => k))
  (at level 61, m at next level, right associativity) : world_scope.
Notation "m ;; k" := (bind m (fun _ => k))
  (at level 61, right associativity) : world_scope.
Local Open Scope world_scope.

(** [time.time()] *)
Definition time_time : M Q :=
  fun w => (clock w (ticks w),
            mkWorld (clock w) (S (ticks w)) (trace w) (fn_prev_total_sent w)).

Definition emit (e : event) : M unit :=
  fun w => (tt, mkWorld (clock w) (ticks w) (trace w ++ [e]) (fn_prev_total_sent w)).

Definition print (l : line) : M unit := emit (Print l).

(** [print_interval_stats], lines 154-171. *)
Definition print_interval_stats (connection_id : Z) (client_ip : string)
    (client_port : Z) (start_time : Q) (prev_total_sent : Z) (format : string)
    (interval : Z) (total_sent : Z) : M unit :=
  current_time <- time_time ;;
  let elapsed_time := (current_time - start_time)%Q in
  let interval_elapsed_time := (elapsed_time - inject_Z interval)%Q in
  let interval_transfer := inject_Z (total_sent - prev_total_sent) in
  let interval_bandwidth :=
    ((interval_transfer / (1024 * 1024)) / inject_Z interval)%Q in
  let (interval_transfer, interval_bandwidth) :=
    if String.eqb format "KB"
    then ((interval_transfer / 1024)%Q, (interval_bandwidth * 1024)%Q)
    else if String.eqb format "MB"
    then ((interval_transfer / (1024 * 1024))%Q, interval_bandwidth)
    else (interval_transfer, interval_bandwidth) in
  print (IntervalStats connection_id client_ip client_port
           interval_elapsed_time elapsed_time interval_transfer format
           interval_bandwidth).

(** The arguments of [client] together with what [s.getsockname()] and the
    first [time.time()] gave: everything the loops read but never write. *)
Record params := mkParams {
  server_ip : string;
  port : Z;
  num_bytes : option Z;
  duration : option Z;
  format : string;
  interval : option Z;
  connection_id : Z;
  client_ip : string;
  client_port : Z;
  start_time : Q
}.

(** The locals the loops update.  [last_print_time] is bound by the source
    only when [interval is not None], and is read only then. *)
Record vars := mkVars {
  total_sent : Z;
  prev_total_sent : Z;
  last_print_time : Q
}.

(** Lines 221-224 (and 231-234): the report at the end of a loop body.
    [and] short-circuits, so the clock is read only when [interval] is set. *)
Definition report_if_due (p : params) (v : vars) : M vars :=
  match interval p with
  | None => ret v
  | Some iv =>
      t <- time_time ;;
      if Qle_bool (inject_Z iv) (t - last_print_time v) then
        print_interval_stats (connection_id p) (client_ip p) (client_port p)
          (start_time p) (prev_total_sent v) (format p) iv (total_sent v) ;;
        last_print_time' <- time_time ;;
        ret (mkVars (total_sent v) (total_sent v) last_print_time')
      else ret v
  end.

(** One turn of [while total_sent < num_bytes] (lines 217-224): [None] when
    the condition is false. *)
Definition iter_num (p : params) (num_bytes : Z) (v : vars) : M (option vars) :=
  if total_sent v <? num_bytes then
    let to_send := Z.min 1000 (num_bytes - total_sent v) in
    emit (Sendall (zeros to_send)) ;;
    v' <- report_if_due p (mkVars (total_sent v + to_send) (prev_total_sent v)
                                  (last_print_time v)) ;;
    ret (Some v')
  else ret None.

(** One turn of [while time.time() < end_time] (lines 228-234). *)
Definition iter_time (p : params) (end_time : Q) (v : vars) : M (option vars) :=
  t <- time_time ;;
  if negb (Qle_bool end_time t) then
    emit (Sendall (zeros 1000)) ;;
    v' <- report_if_due p (mkVars (total_sent v + 1000) (prev_total_sent v)
                                  (last_print_time v)) ;;
    ret (Some v')
  else ret None.

(** A [while] loop given by its turn. *)
Fixpoint while (fuel : nat) (iter : vars -> M (option vars)) (v : vars)
    (w : world) : option (vars * world) :=
  match fuel with
  | O => None
  | S fuel' =>
      match iter v w with
      | (Some v', w') => while fuel' iter v' w'
      | (None, w') => Some (v, w')
      end
  end.

(** Lines 216-234: which loop runs. *)
Definition send_loop (fuel : nat) (p : params) (v : vars) (w : world)
  : option (vars * world) :=
  match num_bytes p with
  | Some n => while fuel (iter_num p n) v w
  | None =>
      match duration p with
      | Some d => while fuel (iter_time p (start_time p + inject_Z d)%Q) v w
      | None => Some (v, w)
      end
  end.

(** The sizes of the data chunks in a piece of trace, in order. *)
Definition sent_sizes (t : list event) : list Z :=
  flat_map (fun e => match e with Sendall d => [len d] | _ => [] end) t.

Definition sum (l : list Z) : Z := fold_right Z.add 0 l.

(** Lines 164-168 as a table: what an interval report divides the byte
    count by. *)
Definition interval_unit (format : string) : Q :=
  if String.eqb format "KB" then 1024
  else if String.eqb format "MB" then 1024 * 1024
  else 1.

(** Lines 245-250 as a table: what the final summary divides the byte
    count and the bandwidth by. *)
Definition summary_unit (format : string) : Q :=
  if String.eqb format "KB" then 1000
  else if String.eqb format "MB" then 1000000
  else 1.

(** What the network does to one session: whether [s.connect] succeeds,
    what [s.getsockname()] returns, and what the peer answers to [b'BYE']:
    [Some data] is the payload of the segment that arrives ([b''] when the
    peer has closed), [None] means that nothing ever arrives, in which case
    [s.recv], which has no timeout, never returns. *)
Record net := mkNet {
  connect_ok : bool;
  sockname : string * Z;
  reply : option bytes
}.

(** [s.recv(bufsize)] after [b'BYE'] was sent. *)
Definition recv (bufsize : nat) (n : net) : option bytes :=
  option_map (firstn bufsize) (reply n).

(** Lines 244-250: conversion to the display unit in the final summary. *)
Definition convert_total (format : string) (total_sent : Q) : Q :=
  if String.eqb format "KB" then total_sent / 1000
  else if String.eqb format "MB" then total_sent / 1000000
  else total_sent.

Definition convert_bandwidth (format : string) (bandwidth : Q) : Q :=
  if String.eqb format "KB" then bandwidth / 1000
  else if String.eqb format "MB" then bandwidth / 1000000
  else bandwidth.

(** Lines 199-213: up to and including the START line. *)
Definition prologue (n : net) (server_ip : string) (port : Z)
    (num_bytes duration : option Z) (format : string) (interval : option Z)
    (connection_id : Z) : M (outcome (params * vars)) :=
  print (Connecting connection_id server_ip port) ;;
  emit (Connect server_ip port) ;;
  if connect_ok n then
    let (client_ip, client_port) := sockname n in
    print (Connected connection_id server_ip port) ;;
    start_time <- time_time ;;
    let last_print_time := start_time in
    let total_sent := 0 in
    let prev_total_sent := 0 in
    emit (SendStart start_time) ;;
    ret (Returned
           (mkParams server_ip port num_bytes duration format interval
                     connection_id client_ip client_port start_time,
            mkVars total_sent prev_total_sent last_print_time))
  else ret (Raised ConnectionRefusedError).

(** Lines 236-255: the termination handshake and the final summary. *)
Definition epilogue (n : net) (p : params) (v : vars) : M (outcome unit) :=
  emit (Sleep 6) ;;
  emit (Sendall BYE) ;;
  match recv 1000 n with
  | None => ret Blocked
  | Some data =>
      if bytes_eqb data ACK_BYE then
        t <- time_time ;;
        let elapsed_time := (t - start_time p)%Q in
        if Qeq_bool elapsed_time 0 then ret (Raised ZeroDivisionError)
        else
          let bandwidth := (inject_Z (total_sent v) / elapsed_time)%Q in
          print Rule ;;
          print Header ;;
          print (Summary (client_ip p) (client_port p) elapsed_time
                   (convert_total (format p) (inject_Z (total_sent v)))
                   (format p)
                   (convert_bandwidth (format p) bandwidth)) ;;
          ret (Returned tt)
      else ret (Returned tt)
  end.

(** [client(server_ip, port, num_bytes, duration, format, interval,
    connection_id)], lines 195-255.  [None]: a loop is still running when
    the fuel is spent. *)
Definition client (fuel : nat) (n : net) (server_ip : string) (port : Z)
    (num_bytes duration : option Z) (format : string) (interval : option Z)
    (connection_id : Z) (w : world) : option (outcome unit * world) :=
  match prologue n server_ip port num_bytes duration format interval
                 connection_id w with
  | (Returned (p, v), w1) =>
      match send_loop fuel p v w1 with
      | Some (v', w2) => Some (epilogue n p v' w2)
      | None => None
      end
  | (Raised e, w1) => Some (Raised e, w1)
  | (Blocked, w1) => Some (Blocked, w1)
  end.

End Client.

(** ** Sessions of one process, interleaved *)

Module Threads.
Import Client.

(** The turn of whichever loop the parameters select (lines 216-234). *)
Definition turn (p : params) (v : vars) : M (option vars) :=
  match num_bytes p with
  | Some n => iter_num p n v
  | None =>
      match duration p with
      | Some d => iter_time p (start_time p + inject_Z d)%Q v
      | None => ret None
      end
  end.

(** What belongs to one session thread: its arguments and locals, its own
    readings of the clock, its own output, and whether its loop still runs. *)
Record session := mkSession {
  s_params : params;
  s_vars : vars;
  s_clock : nat -> Q;
  s_ticks : nat;
  s_trace : list event;
  s_running : bool
}.

(** The process: the one function attribute all threads can reach, and the
    session threads. *)
Record process := mkProcess {
  attr : Z;
  threads : list session
}.

(** One loop turn of a session, run against the current value [g] of the
    shared attribute; returns the attribute's new value. *)
Definition step_session (g : Z) (s : session) : Z * session :=
  if s_running s then
    match turn (s_params s) (s_vars s)
               (mkWorld (s_clock s) (s_ticks s) (s_trace s) g) with
    | (Some v', w') =>
        (fn_prev_total_sent w',
         mkSession (s_params s) v' (clock w') (ticks w') (trace w') true)
    | (None, w') =>
        (fn_prev_total_sent w',
         mkSession (s_params s) (s_vars s) (clock w') (ticks w') (trace w') false)
    end
  else (g, s).

Fixpoint set_nth {A} (i : nat) (x : A) (l : list A) : list A :=
  match l, i with
  | [], _ => []
  | _ :: l', O => x :: l'
  | y :: l', S i' => y :: set_nth i' x l'
  end.

(** The scheduler gives thread [i] one turn. *)
Definition step (i : nat) (pr : process) : process :=
  match nth_error (threads pr) i with
  | Some s =>
      let (g', s') := step_session (attr pr) s in
      mkProcess g' (set_nth i s' (threads pr))
  | None => pr
  end.

(** A schedule is the order in which threads get their turns. *)
Fixpoint run (schedule : list nat) (pr : process) : process :=
  match schedule with
  | [] => pr
  | i :: rest => run rest (step i pr)
  end.

(** A session running with no sibling: [k] turns, starting from the
    attribute value [g]. *)
Fixpoint alone (k : nat) (g : Z) (s : session) : Z * session :=
  match k with
  | O => (g, s)
  | S k' => let (g', s') := step_session g s in alone k' g' s'
  end.

(** The interval reports among a session's output. *)
Definition interval_reports (t : list event) : list line :=
  flat_map (fun e => match e with
                     | Print (IntervalStats a b c d e f g h) =>
                         [IntervalStats a b c d e f g h]
                     | _ => []
                     end) t.

(** The world with the shared attribute set to [g]. *)
Definition set_attr (g : Z) (w : world) : world :=
  mkWorld (clock w) (ticks w) (trace w) g.

(** A computation that neither reads nor writes the shared attribute. *)
Definition oblivious {A} (m : M A) : Prop :=
  forall (g : Z) (w : world),
    m (set_attr g w) = (fst (m w), set_attr g (snd (m w))).

(** Two threads that run [-t 3 -i 1] against a clock whose [n]-th reading
    is [n] seconds, and a process made of them. *)
Definition sample_thread (connection_id : Z) (format : string) : session :=
  mkSession
    (mkParams "127.0.0.1" 8088 None (Some 3) format (Some 1) connection_id
              "127.0.0.1" (50000 + connection_id) 0)
    (mkVars 0 0 0) (fun n => inject_Z (Z.of_nat n)) 1 [] true.

Definition sample_process : process :=
  mkProcess 0 [sample_thread 1 "KB"; sample_thread 2 "MB"].

End Threads.

(** ** [main] *)

Module Main.

(** The namespace [parser.parse_args()] returns (lines 44-57). *)
Record args := mkArgs {
  server : bool;
  bind : string;
  port : Z;
  format : string;
  num : option Z;
  client : bool;
  serverip : string;
  time : option Z;
  interval : option Z;
  connections : Z
}.

(** What a run of [main] amounts to: the lines [main] itself prints, the
    server it starts, the client sessions it submits with what became of
    each, and how [main] ends. *)
Record run := mkRun {
  printed : list string;
  serving : option (string * Z * string);
  sessions : list (option (outcome unit * Client.world));
  status : outcome unit
}.

(** [range(n)] *)
Definition range (n : Z) : list Z := map Z.of_nat (seq 0 (Z.to_nat n)).

Definition finished (r : option (outcome unit * Client.world)) : bool :=
  match r with
  | Some (Returned _, _) | Some (Raised _, _) => true
  | _ => false
  end.

Fixpoint first_raised (rs : list (option (outcome unit * Client.world)))
  : outcome unit :=
  match rs with
  | [] => Returned tt
  | Some (Raised e, _) :: _ => Raised e
  | _ :: rs' => first_raised rs'
  end.

(** Lines 80-81 and the end of the [with] block: [future.result()] on
    every future in turn re-raises the first session's exception, after the
    executor has waited for all sessions. *)
Definition wait_all (rs : list (option (outcome unit * Client.world)))
  : outcome unit :=
  if forallb finished rs then first_raised rs else Blocked.

(** [main()], lines 59-81, on parsed arguments.  [env id] is the network
    and the world session [id] runs in.  [server] (lines 131-141) accepts
    connections for ever, so [main] does not return in server mode (a
    failing [bind] is not modelled). *)
Definition main (fuel : nat) (env : Z -> Client.net * Client.world)
    (a : args) : run :=
  if negb (server a) && negb (client a) then
    mkRun ["Error: you must run either in server or client mode."%string]
          None [] (Returned tt)
  else if server a then
    mkRun [] (Some (bind a, port a, format a)) [] Blocked
  else if client a then
    match
      (match num a, time a with
       | None, None => Some (Some 25)
       | Some _, Some _ => None
       | _, _ => Some (time a)
       end)
    with
    | None =>
        mkRun ["Error: you cannot use both --num and --time at the same time."%string]
              None [] (Returned tt)
    | Some time' =>
        let futures :=
          map (fun i =>
                 Client.client fuel (fst (env (i + 1))) (serverip a) (port a)
                   (num a) time' (format a) (interval a) (i + 1)
                   (snd (env (i + 1))))
              (range (connections a)) in
        mkRun [] None futures (wait_all futures)
    end
  else mkRun [] None [] (Returned tt).

(** The status the interpreter exits with once [main()] is over (lines
    258-259): 0 after a normal return, 1 after an uncaught exception; a run
    that never ends has none. *)
Definition exit_status (r : run) : option Z :=
  match status r with
  | Returned _ => Some 0
  | Raised _ => Some 1
  | Blocked => None
  end.

(** A connection is attempted exactly when a session performs [Connect]. *)
Definition attempts_connection (r : run) : bool :=
  existsb (fun s => match s with
                    | Some (_, w) =>
                        existsb (fun e => match e with
                                          | Client.Connect _ _ => true
                                          | _ => false
                                          end) (Client.trace w)
                    | None => true
                    end) (sessions r).

End Main.

(** ** Sample inputs *)

Module Samples.
Import Client.

(** A clock whose [n]-th reading is [n] seconds. *)
Definition steady_clock (n : nat) : Q := inject_Z (Z.of_nat n).

(** A clock read so rarely that eight seconds pass between two readings,
    as across the [time.sleep(6)] of the epilogue. *)
Definition slow_clock (n : nat) : Q := inject_Z (8 * Z.of_nat n).

(** A clock that read 0 at the start of the session and is next read 2.5
    seconds later, then advances by a millisecond per reading. *)
Definition late_clock (n : nat) : Q :=
  match n with
  | O => 0
  | S _ => (5 # 2) + inject_Z (Z.of_nat n) / 1000
  end.

(** A session world just after [start_time = time.time()] read 0. *)
Definition world0 : world := mkWorld steady_clock 1 [] 0.

(** The locals at line 209. *)
Definition vars0 : vars := mkVars 0 0 0.

(** [-n <n>B -f <format>], [-n 2500B], [-t 3] and [-t 3 -i 1 -f <format>]
    on the loopback interface, started at time 0. *)
Definition sending (n : Z) (format : string) : params :=
  mkParams "127.0.0.1" 8088 (Some n) None format None 1 "127.0.0.1" 50000 0.

Definition by_bytes : params := sending 2500 "MB".

Definition by_time : params :=
  mkParams "127.0.0.1" 8088 None (Some 3) "MB" None 1 "127.0.0.1" 50000 0.

Definition by_time_reporting (format : string) : params :=
  mkParams "127.0.0.1" 8088 None (Some 3) format (Some 1) 1 "127.0.0.1" 50000 0.

(** Peers: one that acknowledges, one that closes instead, one that
    answers something else, one that never answers. *)
Definition acking : net := mkNet true ("127.0.0.1", 50000) (Some ACK_BYE).
Definition closing : net := mkNet true ("127.0.0.1", 50000) (Some []).
Definition garbling : net := mkNet true ("127.0.0.1", 50000) (Some [x4e; x41; x4b]).
Definition silent : net := mkNet true ("127.0.0.1", 50000) None.

(** Parsed command lines: [-c] with the given [-n] and [-t], and one with
    neither [-s] nor [-c]. *)
Definition client_args (num time : option Z) : Main.args :=
  Main.mkArgs false "" 8088 "MB" num true "127.0.0.1" time None 1.

Definition no_mode_args : Main.args :=
  Main.mkArgs false "" 8088 "MB" None false "127.0.0.1" None None 1.

(** Every session meets the same peer and a clock that starts at 0. *)
Definition facing (n : net) (connection_id : Z) : net * world :=
  (n, mkWorld slow_clock 0 [] 0).

End Samples.

(** ** The argument converters: [check_positive] and [num_bytes] *)

Module Argparse.

(** What a converter handed to [add_argument(type=...)] does with the
    string it is given: it returns a value, raises
    [argparse.ArgumentTypeError] with a message, or lets the [ValueError]
    of [int] through. *)
Inductive parsed (A : Type) :=
| Value (a : A)
| ArgumentTypeError (msg : string)
| ValueError.
Arguments Value {A} a.
Arguments ArgumentTypeError {A} msg.
Arguments ValueError {A}.

(** The slices [value[-n:]] and [value[:-n]] for [n > 0].  The source
    slices by character and the model by byte; the two agree wherever the
    source looks, since the slices are only compared with ASCII suffixes. *)
Definition last_chars (n : nat) (value : string) : string :=
  substring (String.length value - n) n value.

Definition but_last (n : nat) (value : string) : string :=
  substring 0 (String.length value - n) value.

Section WithInt.

(** The builtin [int] on strings; [None] stands for its [ValueError]. *)
Variable int : string -> option Z.

(** [check_positive(value)], lines 14-19. *)
Definition check_positive (value : string) : parsed Z :=
  match int value with
  | None => ValueError
  | Some ivalue =>
      if ivalue <=? 0
      then ArgumentTypeError (value ++ " is an invalid positive value")
      else Value ivalue
  end.

(** [num_bytes(value)], lines 28-37. *)
Definition num_bytes (value : string) : parsed Z :=
  if String.eqb (last_chars 2 value) "KB" then
    match int (but_last 2 value) with
    | Some n => Value (n * 1000)
    | None => ValueError
    end
  else if String.eqb (last_chars 2 value) "MB" then
    match int (but_last 2 value) with
    | Some n => Value (n * 1000000)
    | None => ValueError
    end
  else if String.eqb (last_chars 1 value) "B" then
    match int (but_last 1 value) with
    | Some n => Value n
    | None => ValueError
    end
  else ArgumentTypeError "Invalid format for --num. Use B, KB, or MB.".

End WithInt.

(** A reader of plain decimal numerals, an optional sign and then digits:
    what [int] returns on such strings.  It serves as the [int] of the
    sample inputs. *)
Definition digit (c : ascii) : option Z :=
  let n := Z.of_nat (nat_of_ascii c) in
  if (48 <=? n) && (n <=? 57) then Some (n - 48) else None.

Fixpoint digits (acc : Z) (s : string) : option Z :=
  match s with
  | EmptyString => Some acc
  | String c s' =>
      match digit c with
      | Some d => digits (10 * acc + d) s'
      | None => None
      end
  end.

Definition int_decimal (s : string) : option Z :=
  match s with
  | EmptyString => None
  | String "-" (String c s') => option_map Z.opp (digits 0 (String c s'))
  | String "+" (String c s') => digits 0 (String c s')
  | String "-" EmptyString | String "+" EmptyString => None
  | _ => digits 0 s
  end.

End Argparse.

(** ** Reading the reports *)

Module Reporting.
Import Client.

(** Lines 120-125 as a table: what the server's statistics line divides
    the byte count and the rate by.  A format other than [KB] and [MB] is
    not converted. *)
Definition server_unit (format : string) : Q :=
  if String.eqb format "KB" then 1000
  else if String.eqb format "MB" then 1000000
  else 1.

(** The bytes accounted for by the interval reports in a piece of trace:
    each report's byte column, back in bytes. *)
Fixpoint reported_bytes (t : list event) : Q :=
  match t with
  | [] => 0
  | Print (IntervalStats _ _ _ _ _ interval_transfer format _) :: t' =>
      interval_transfer * interval_unit format + reported_bytes t'
  | _ :: t' => reported_bytes t'
  end.

(** What a send loop can do to the outside world: send a chunk of between
    1 and 1000 filler bytes, or print an interval report. *)
Definition loop_event (e : event) : Prop :=
  match e with
  | Sendall data => exists k, 0 < k <= 1000 /\ data = zeros k
  | Print (IntervalStats _ _ _ _ _ _ _ _) => True
  | _ => False
  end.

(** What one turn of a send loop that goes on amounts to: one chunk of
    [k] filler bytes, [0 < k <= 1000], counted in [total_sent]; then either
    no report, or one interval report for the bytes since the last one,
    after which [prev_total_sent] has caught up with [total_sent]. *)
Definition turn_spec (p : params) (v : vars) (w : world)
    (v1 : vars) (w1 : world) : Prop :=
  exists k evs,
    0 < k <= 1000 /\
    trace w1 = trace w ++ Sendall (zeros k) :: evs /\
    total_sent v1 = total_sent v + k /\
    ((evs = [] /\ prev_total_sent v1 = prev_total_sent v)
     \/
     (exists a b x bw,
         interval p <> None /\
         evs = [Print (IntervalStats (connection_id p) (client_ip p)
                         (client_port p) a b x (format p) bw)] /\
         (x * interval_unit (format p)
          == inject_Z (total_sent v1 - prev_total_sent v))%Q /\
         prev_total_sent v1 = total_sent v1)).

End Reporting.

(** ** From the client's socket to the server's *)

Module Wire.
Import Client.

Section WithStartLine.

(** The bytes of [f'START {start_time}\n'.encode()]: the text of a float
    is not modelled, so the encoding is left open. *)
Variable encode_start : Q -> bytes.

(** What a session's trace puts on the wire, one segment per [sendall]. *)
Definition wire (t : list event) : list bytes :=
  flat_map (fun e => match e with
                     | SendStart start_time => [encode_start start_time]
                     | Sendall data => [data]
                     | _ => []
                     end) t.

End WithStartLine.

(** A stand-in for the START line of a session started at any time: the
    ten bytes of [b'START 0.0\n']. *)
Definition start_line (start_time : Q) : bytes :=
  [x53; x54; x41; x52; x54; x20; x30; x2e; x30; x0a].

End Wire.


(** * Properties *)

(** ** Bytes *)

Lemma bytes_eqb_eq (a b : bytes) : bytes_eqb a b = true <-> a = b.
Proof.
  revert b; induction a as [|x a IH]; intros [|y b]; simpl; split;
    try congruence; try discriminate.
  - intros H. apply andb_true_iff in H as [Hxy Hab].
    apply Byte.byte_dec_bl in Hxy. apply IH in Hab. congruence.
  - intros H. injection H as -> ->. apply andb_true_iff. split.
    + now apply Byte.byte_dec_lb.
    + now apply IH.
Qed.

Lemma bytes_eqb_neq (a b : bytes) : a <> b -> bytes_eqb a b = false.
Proof.
  intros H. destruct (bytes_eqb a b) eqn:E; [|reflexivity].
  apply bytes_eqb_eq in E. contradiction.
Qed.

Lemma len_zeros (n : Z) : 0 <= n -> len (zeros n) = n.
Proof.
  intros H. unfold len, zeros. rewrite repeat_length. lia.
Qed.

(** ** The receive loop *)

Module ServerFacts.
Import Server.

Lemma recv_short (seg : bytes) (rest out : list bytes) :
  (List.length seg <= 1000)%nat ->
  recv 1000 (mkConn (seg :: rest) out) = (seg, mkConn rest out).
Proof.
  intros H. unfold recv; cbn [inbox outbox].
  apply Nat.leb_le in H. now rewrite H.
Qed.

Lemma recv_closed (out : list bytes) :
  recv 1000 (mkConn [] out) = ([], mkConn [] out).
Proof. reflexivity. Qed.

(** Once the peer has closed, every read is empty and the loop goes on. *)
Lemma recv_loop_closed (fuel : nat) (out : list bytes) (total : Z) :
  recv_loop fuel (mkConn [] out) total = None.
Proof.
  revert total; induction fuel as [|fuel IH]; intros total; [reflexivity|].
  cbn [recv_loop]. rewrite recv_closed.
  replace (bytes_eqb [] BYE) with false by reflexivity.
  apply IH.
Qed.

Lemma recv_loop_payload (payload : list bytes) :
  Forall plain payload ->
  forall (fuel : nat) (rest out : list bytes) (total : Z),
    recv_loop (List.length payload + fuel) (mkConn (payload ++ rest) out) total
    = recv_loop fuel (mkConn rest out) (total + total_len payload).
Proof.
  induction 1 as [|seg payload [Hlen Hne] _ IH]; intros fuel rest out total.
  - simpl. now rewrite Z.add_0_r.
  - cbn [List.length Nat.add app recv_loop].
    rewrite recv_short by assumption.
    rewrite (bytes_eqb_neq _ _ Hne), IH.
    f_equal. cbn [total_len fold_right]. fold (total_len payload). lia.
Qed.

Lemma plain_zeros_5 : Forall plain [zeros 5].
Proof.
  constructor; [|constructor]. split; [simpl; lia | discriminate].
Qed.

End ServerFacts.

Module ReceiveMode.
Import Server ServerFacts.

(** C1 (as the code behaves).  A receive loop fed payload segments worth
    [k] bytes (each handed over whole by [recv(1000)], none of them the
    marker) followed by [b'BYE'] ends with [total_received = k + 3], not
    [k]: line 110 adds [len(data)] before line 111 tests for the marker, so
    the marker's own three bytes are counted. *)
Theorem recv_loop_counts_marker (payload : list bytes) (out : list bytes) :
  Forall plain payload ->
  recv_loop (S (List.length payload)) (mkConn (payload ++ [BYE]) out) 0
  = Some (total_len payload + 3, mkConn [] (out ++ [ACK_BYE])).
Proof.
  intros H.
  replace (S (List.length payload)) with (List.length payload + 1)%nat by lia.
  rewrite recv_loop_payload by assumption.
  cbn [recv_loop]. rewrite recv_short by (simpl; lia).
  replace (bytes_eqb BYE BYE) with true by reflexivity.
  reflexivity.
Qed.

Lemma recv_loop_counts_marker_witness :
  Forall plain [zeros 5] /\
  recv_loop 2 (mkConn [zeros 5; BYE] []) 0 = Some (8, mkConn [] [ACK_BYE]).
Proof.
  split; [exact plain_zeros_5|].
  exact (recv_loop_counts_marker [zeros 5] [] plain_zeros_5).
Defined.

(** The statistics line shows the same count: five payload bytes and the
    marker, over one second, in format [B], are reported as 8 bytes. *)
Example handle_client_five_bytes :
  handle_client 2 0 1 ("10.0.0.1", 8088) (mkConn [zeros 5; BYE] [])
                ("10.0.0.2", 40000) "B"
  = Some (Returned
            ([Connected "10.0.0.2" 40000 "10.0.0.1" 8088; Header;
              Stats ("10.0.0.2", 40000) (1 - 0) (inject_Z 8) "B"
                    (inject_Z 8 / (1 - 0))],
             mkConn [] [ACK_BYE])).
Proof. reflexivity. Qed.

(** C2 (as the code behaves).  When the peer sends payload and closes
    without ever sending [b'BYE'], the session does not end: every [recv]
    after the close returns [b''], which is not the marker, and nothing
    else leaves the loop.  No amount of fuel yields a result, so
    [handle_client] never reports anything. *)
Theorem handle_client_spins_after_close (payload : list bytes) (fuel : nat)
    (t0 t1 : Q) (sockname addr : string * Z) (format : string) :
  Forall plain payload ->
  recv_loop fuel (mkConn payload []) 0 = None /\
  handle_client fuel t0 t1 sockname (mkConn payload []) addr format = None.
Proof.
  intros H.
  assert (Hloop : forall total out, recv_loop fuel (mkConn payload out) total = None).
  { revert fuel.
    induction H as [|seg payload [Hlen Hne] _ IH]; intros fuel total out.
    - apply recv_loop_closed.
    - destruct fuel as [|fuel]; [reflexivity|].
      cbn [recv_loop]. rewrite recv_short by assumption.
      rewrite (bytes_eqb_neq _ _ Hne). apply IH. }
  unfold handle_client. rewrite Hloop. split; reflexivity.
Qed.

Lemma handle_client_spins_after_close_witness :
  Forall plain [zeros 5] /\
  recv_loop 1000 (mkConn [zeros 5] []) 0 = None /\
  handle_client 1000 0 1 ("10.0.0.1", 8088) (mkConn [zeros 5] [])
                ("10.0.0.2", 40000) "MB" = None.
Proof.
  split; [exact plain_zeros_5|].
  exact (handle_client_spins_after_close [zeros 5] 1000%nat 0 1
           ("10.0.0.1"%string, 8088) ("10.0.0.2"%string, 40000) "MB"
           plain_zeros_5).
Defined.

End ReceiveMode.

(** ** The send loops *)

Module ClientFacts.
Import Client.
Local Open Scope world_scope.

Lemma sent_sizes_app (t1 t2 : list event) :
  sent_sizes (t1 ++ t2) = sent_sizes t1 ++ sent_sizes t2.
Proof. unfold sent_sizes. apply flat_map_app. Qed.

Lemma sum_app (l1 l2 : list Z) : sum (l1 ++ l2) = sum l1 + sum l2.
Proof.
  induction l1 as [|x l1 IH]; simpl; [reflexivity|].
  unfold sum in *. simpl. rewrite IH. lia.
Qed.

Lemma sum_repeat (x : Z) (n : nat) : sum (repeat x n) = x * Z.of_nat n.
Proof.
  induction n as [|n IH]; [simpl; lia|].
  cbn [repeat]. change (sum (x :: repeat x n)) with (x + sum (repeat x n)).
  rewrite IH. lia.
Qed.

(** The report at the end of a loop body sends no data and leaves
    [total_sent] alone. *)
Lemma report_if_due_frame (p : params) (v : vars) (w : world) :
  exists evs,
    total_sent (fst (report_if_due p v w)) = total_sent v /\
    trace (snd (report_if_due p v w)) = trace w ++ evs /\
    sent_sizes evs = [].
Proof.
  unfold report_if_due. destruct (interval p) as [iv|].
  - unfold bind, time_time, print_interval_stats, print, emit, ret, bind.
    cbn [clock ticks trace fn_prev_total_sent].
    destruct (Qle_bool _ _).
    + destruct (String.eqb (format p) "KB"); [|destruct (String.eqb (format p) "MB")];
        cbn [fst snd total_sent trace]; eexists; (split; [reflexivity|]);
        (split; [reflexivity|]); reflexivity.
    + exists []. cbn. now rewrite app_nil_r.
  - exists []. cbn. now rewrite app_nil_r.
Qed.

(** A turn of the byte-count loop whose condition holds. *)
Lemma iter_num_sends (p : params) (n : Z) (v : vars) (w : world) :
  total_sent v < n ->
  exists v' w' evs,
    iter_num p n v w = (Some v', w') /\
    total_sent v' = total_sent v + Z.min 1000 (n - total_sent v) /\
    trace w' = trace w ++ evs /\
    sent_sizes evs = [Z.min 1000 (n - total_sent v)].
Proof.
  intros Hlt. unfold iter_num.
  apply Z.ltb_lt in Hlt as Hb. rewrite Hb.
  set (to_send := Z.min 1000 (n - total_sent v)).
  set (v1 := mkVars _ _ _).
  unfold bind at 1. unfold emit at 1.
  set (w1 := mkWorld _ _ _ _).
  destruct (report_if_due_frame p v1 w1) as (evs & Ht & Htr & Hs).
  unfold bind, ret. destruct (report_if_due p v1 w1) as [v' w'].
  cbn [fst snd] in *.
  exists v', w', (Sendall (zeros to_send) :: evs).
  split; [reflexivity|]. split; [exact Ht|]. split.
  - rewrite Htr. subst w1. cbn [trace]. now rewrite <- app_assoc.
  - cbn [sent_sizes flat_map]. fold (sent_sizes evs). rewrite Hs.
    cbn [app]. rewrite len_zeros by (subst to_send; lia). reflexivity.
Qed.

Lemma iter_num_stops (p : params) (n : Z) (v : vars) (w : world) :
  n <= total_sent v -> iter_num p n v w = (None, w).
Proof.
  intros H. unfold iter_num.
  replace (total_sent v <? n) with false by (symmetry; apply Z.ltb_ge; lia).
  reflexivity.
Qed.

(** The byte-count loop from any state with something left to send:
    full chunks, then one chunk for what remains. *)
Lemma while_iter_num (p : params) (n : Z) (q : nat) :
  forall (v : vars) (w : world) (fuel : nat) (r : Z),
    0 < r <= 1000 ->
    n - total_sent v = 1000 * Z.of_nat q + r ->
    (q + 1 < fuel)%nat ->
    exists v' w' evs,
      while fuel (iter_num p n) v w = Some (v', w') /\
      total_sent v' = n /\
      trace w' = trace w ++ evs /\
      sent_sizes evs = repeat 1000 q ++ [r].
Proof.
  induction q as [|q IH]; intros v w fuel r Hr Hrem Hfuel.
  - destruct fuel as [|[|fuel]]; try lia.
    destruct (iter_num_sends p n v w) as (v1 & w1 & evs & Hit & Ht & Htr & Hs);
      [lia|].
    cbn [while]. rewrite Hit.
    rewrite iter_num_stops by lia.
    exists v1, w1, evs. repeat split; try assumption; try lia.
    rewrite Hs. cbn [repeat app]. f_equal. lia.
  - destruct fuel as [|fuel]; try lia.
    destruct (iter_num_sends p n v w) as (v1 & w1 & evs & Hit & Ht & Htr & Hs);
      [lia|].
    cbn [while]. rewrite Hit.
    destruct (IH v1 w1 fuel r Hr) as (v' & w' & evs' & Hw & Ht' & Htr' & Hs');
      [lia | lia |].
    exists v', w', (evs ++ evs'). repeat split; try assumption.
    + rewrite Htr', Htr. now rewrite app_assoc.
    + rewrite sent_sizes_app, Hs, Hs'. cbn [repeat app]. f_equal. lia.
Qed.

(** A turn of the duration loop, effect by effect. *)
Lemma iter_time_unfold (p : params) (e : Q) (v : vars) (w : world) :
  iter_time p e v w =
  let w0 := mkWorld (clock w) (S (ticks w)) (trace w) (fn_prev_total_sent w) in
  if Qle_bool e (clock w (ticks w)) then (None, w0)
  else
    let (v', w') :=
      report_if_due p
        (mkVars (total_sent v + 1000) (prev_total_sent v) (last_print_time v))
        (mkWorld (clock w) (S (ticks w)) (trace w ++ [Sendall (zeros 1000)])
                 (fn_prev_total_sent w)) in
    (Some v', w').
Proof.
  unfold iter_time, bind, time_time, emit, ret.
  cbn [clock ticks trace fn_prev_total_sent].
  destruct (Qle_bool e (clock w (ticks w))); cbn [negb]; [reflexivity|].
  now destruct (report_if_due _ _ _).
Qed.

(** A turn of the duration loop either stops, having only read the clock,
    or sends one chunk of 1000 bytes. *)
Lemma iter_time_cases (p : params) (e : Q) (v : vars) (w : world) :
  (iter_time p e v w
   = (None, mkWorld (clock w) (S (ticks w)) (trace w) (fn_prev_total_sent w))
   /\ Qle_bool e (clock w (ticks w)) = true) \/
  (exists v' w' evs,
      iter_time p e v w = (Some v', w') /\
      Qle_bool e (clock w (ticks w)) = false /\
      total_sent v' = total_sent v + 1000 /\
      trace w' = trace w ++ evs /\
      sent_sizes evs = [1000]).
Proof.
  rewrite iter_time_unfold. cbv zeta.
  destruct (Qle_bool e (clock w (ticks w))) eqn:E.
  - left. split; reflexivity.
  - right.
    set (v1 := mkVars _ _ _). set (w1 := mkWorld _ _ _ _).
    destruct (report_if_due_frame p v1 w1) as (evs & Ht & Htr & Hs).
    destruct (report_if_due p v1 w1) as [v' w'].
    cbn [fst snd] in *.
    exists v', w', (Sendall (zeros 1000) :: evs).
    split; [reflexivity|]. split; [reflexivity|]. split; [exact Ht|]. split.
    + rewrite Htr. subst w1. cbn [trace]. now rewrite <- app_assoc.
    + cbn [sent_sizes flat_map]. fold (sent_sizes evs). rewrite Hs.
      reflexivity.
Qed.

(** Whenever the duration loop ends, it has sent whole chunks only. *)
Lemma while_iter_time (p : params) (e : Q) (fuel : nat) :
  forall (v : vars) (w : world) (v' : vars) (w' : world),
    while fuel (iter_time p e) v w = Some (v', w') ->
    exists evs k,
      trace w' = trace w ++ evs /\
      sent_sizes evs = repeat 1000 k /\
      total_sent v' = total_sent v + 1000 * Z.of_nat k.
Proof.
  induction fuel as [|fuel IH]; intros v w v' w' H; [discriminate|].
  cbn [while] in H.
  destruct (iter_time_cases p e v w)
    as [[Hit _] | (v1 & w1 & evs & Hit & _ & Ht & Htr & Hs)];
    rewrite Hit in H.
  - injection H as <- <-. exists [], O. cbn [trace repeat].
    rewrite app_nil_r. repeat split; try reflexivity. lia.
  - apply IH in H as (evs' & k & Htr' & Hs' & Ht').
    exists (evs ++ evs'), (S k). split; [|split].
    + rewrite Htr', Htr. now rewrite app_assoc.
    + rewrite sent_sizes_app, Hs, Hs'. reflexivity.
    + lia.
Qed.

(** The reads of the clock never go backwards in a turn, and a turn that
    goes on reads it at least once. *)
Lemma report_if_due_clock (p : params) (v : vars) (w : world) :
  clock (snd (report_if_due p v w)) = clock w /\
  (ticks w <= ticks (snd (report_if_due p v w)))%nat.
Proof.
  unfold report_if_due. destruct (interval p) as [iv|].
  - unfold bind, time_time, print_interval_stats, print, emit, ret, bind.
    cbn [clock ticks trace fn_prev_total_sent].
    destruct (Qle_bool _ _).
    + destruct (String.eqb (format p) "KB"); [|destruct (String.eqb (format p) "MB")];
        simpl; (split; [reflexivity | lia]).
    + simpl. split; [reflexivity | lia].
  - simpl. split; [reflexivity | lia].
Qed.

Lemma iter_time_clock (p : params) (e : Q) (v : vars) (w : world)
    (v' : vars) (w' : world) :
  iter_time p e v w = (Some v', w') ->
  clock w' = clock w /\ (ticks w < ticks w')%nat /\
  Qle_bool e (clock w (ticks w)) = false.
Proof.
  rewrite iter_time_unfold. cbv zeta.
  destruct (Qle_bool e (clock w (ticks w))) eqn:E; [discriminate|].
  set (v1 := mkVars _ _ _). set (w1 := mkWorld _ _ _ _).
  destruct (report_if_due_clock p v1 w1) as [Hc Ht].
  destruct (report_if_due p v1 w1) as [v2 w2].
  cbn [fst snd] in *. intros H. injection H as <- <-.
  subst w1. cbn [clock ticks] in *. repeat split; [assumption | lia].
Qed.

(** The duration loop ends as soon as the session's clock has reached
    [end_time] for good. *)
Lemma while_iter_time_ends (p : params) (e : Q) (N : nat) :
  forall (k : nat) (v : vars) (w : world),
    (forall m, (N <= m)%nat -> Qle_bool e (clock w m) = true) ->
    (N <= ticks w + k)%nat ->
    exists v' w', while (S k) (iter_time p e) v w = Some (v', w').
Proof.
  induction k as [|k IH]; intros v w Hlate Hk.
  - cbn [while].
    destruct (iter_time p e v w) as [[v1|] w1] eqn:Hit.
    + apply iter_time_clock in Hit as (_ & _ & Hgo).
      rewrite Hlate in Hgo by lia. discriminate.
    + eauto.
  - cbn [while]. fold (while (S k)).
    destruct (iter_time p e v w) as [[v1|] w1] eqn:Hit.
    + apply iter_time_clock in Hit as (Hc & Ht & _).
      apply IH; [rewrite Hc; exact Hlate | lia].
    + eauto.
Qed.

End ClientFacts.

Module SendMode.
Import Client ClientFacts.

(** C3.  With a positive byte budget [n], the send loop ends (any fuel
    above [n] is enough); it has sent [q] chunks of exactly 1000 bytes and
    then one last chunk of [r] bytes, [0 < r <= 1000], nothing else; the
    chunks add up to [n] and [total_sent] is exactly [n]. *)
Theorem send_loop_num_exact (p : params) (n : Z) (v : vars) (w : world)
    (fuel : nat) :
  num_bytes p = Some n ->
  0 < n ->
  total_sent v = 0 ->
  (Z.to_nat n < fuel)%nat ->
  exists v' w' evs q r,
    send_loop fuel p v w = Some (v', w') /\
    total_sent v' = n /\
    trace w' = trace w ++ evs /\
    sent_sizes evs = repeat 1000 q ++ [r] /\
    0 < r <= 1000 /\
    Forall (fun size => 0 < size <= 1000) (sent_sizes evs) /\
    sum (sent_sizes evs) = n.
Proof.
  intros Hn Hpos Hv Hfuel. unfold send_loop. rewrite Hn.
  set (q := Z.to_nat ((n - 1) / 1000)).
  set (r := n - 1000 * ((n - 1) / 1000)).
  assert (Hq : 0 <= (n - 1) / 1000) by (apply Z.div_pos; lia).
  assert (Hr : 0 < r <= 1000).
  { subst r. pose proof (Z.mod_pos_bound (n - 1) 1000 ltac:(lia)).
    pose proof (Z.div_mod (n - 1) 1000 ltac:(lia)). lia. }
  assert (Hqn : (n - 1) / 1000 <= n - 1).
  { apply Z.div_le_upper_bound; lia. }
  destruct (while_iter_num p n q v w fuel r Hr)
    as (v' & w' & evs & Hw & Ht & Htr & Hs).
  { subst q r. rewrite Z2Nat.id by lia. lia. }
  { subst q. lia. }
  exists v', w', evs, q, r.
  repeat split; try assumption; try lia.
  - rewrite Hs. apply Forall_app. split.
    + apply Forall_forall. intros x Hx. apply repeat_spec in Hx. lia.
    + constructor; [lia | constructor].
  - rewrite Hs, sum_app, sum_repeat. unfold sum; cbn [fold_right].
    subst q r. rewrite Z2Nat.id by lia. lia.
Qed.

Lemma send_loop_num_exact_witness :
  exists v' w' evs q r,
    send_loop 2501 Samples.by_bytes Samples.vars0 Samples.world0
    = Some (v', w') /\
    total_sent v' = 2500 /\
    trace w' = trace Samples.world0 ++ evs /\
    sent_sizes evs = repeat 1000 q ++ [r] /\
    0 < r <= 1000 /\
    Forall (fun size => 0 < size <= 1000) (sent_sizes evs) /\
    sum (sent_sizes evs) = 2500.
Proof.
  apply (send_loop_num_exact Samples.by_bytes 2500 Samples.vars0
           Samples.world0 2501%nat);
    [reflexivity | lia | reflexivity | lia].
Defined.

(** C10.  Whenever a duration-limited send loop ends, [total_sent] is a
    whole multiple of 1000: the loop has sent [k] chunks, each of exactly
    1000 bytes, and [total_sent = 1000 * k]. *)
Theorem send_loop_time_multiple (p : params) (d : Z) (v : vars) (w : world)
    (fuel : nat) (v' : vars) (w' : world) :
  num_bytes p = None ->
  duration p = Some d ->
  total_sent v = 0 ->
  send_loop fuel p v w = Some (v', w') ->
  total_sent v' mod 1000 = 0 /\
  exists evs k,
    trace w' = trace w ++ evs /\
    sent_sizes evs = repeat 1000 k /\
    total_sent v' = 1000 * Z.of_nat k.
Proof.
  intros Hn Hd Hv H. unfold send_loop in H. rewrite Hn, Hd in H.
  apply while_iter_time in H as (evs & k & Htr & Hs & Ht).
  rewrite Hv in Ht. split.
  - rewrite Ht, Z.add_0_l, Z.mul_comm. apply Z.mod_mul. lia.
  - exists evs, k. repeat split; assumption.
Qed.

Lemma send_loop_time_multiple_witness :
  send_loop 10 Samples.by_time Samples.vars0 Samples.world0
  = Some (mkVars 2000 0 0,
          mkWorld Samples.steady_clock 4
                  [Sendall (zeros 1000); Sendall (zeros 1000)] 0) /\
  2000 mod 1000 = 0 /\
  exists evs k,
    [Sendall (zeros 1000); Sendall (zeros 1000)] = [] ++ evs /\
    sent_sizes evs = repeat 1000 k /\
    2000 = 1000 * Z.of_nat k.
Proof.
  assert (H : send_loop 10 Samples.by_time Samples.vars0 Samples.world0
              = Some (mkVars 2000 0 0,
                      mkWorld Samples.steady_clock 4
                        [Sendall (zeros 1000); Sendall (zeros 1000)] 0))
    by reflexivity.
  split; [exact H|].
  exact (send_loop_time_multiple Samples.by_time 3 Samples.vars0
           Samples.world0 10%nat _ _ eq_refl eq_refl eq_refl H).
Defined.

(** The duration loop does end once the clock has passed the deadline for
    good: if every reading from the [N]-th on is at or after [end_time],
    then [N] turns past the current reading are enough. *)
Lemma send_loop_time_ends (p : params) (d : Z) (v : vars) (w : world)
    (N k : nat) :
  num_bytes p = None ->
  duration p = Some d ->
  (forall m, (N <= m)%nat ->
             Qle_bool (start_time p + inject_Z d) (clock w m) = true) ->
  (N <= ticks w + k)%nat ->
  exists v' w', send_loop (S k) p v w = Some (v', w').
Proof.
  intros Hn Hd Hlate Hk. unfold send_loop. rewrite Hn, Hd.
  now apply (while_iter_time_ends p _ N).
Qed.

(** C8 (as the code behaves).  When [interval] is set and the clock read
    at the end of a loop body is at least [interval] past
    [last_print_time], the session prints one interval report.  With
    [now] the clock as [print_interval_stats] reads it, the report's window
    is [[now - start_time - interval, now - start_time]], that is the last
    [interval] seconds, whatever the time since the last report; its byte
    count is [total_sent - prev_total_sent] in the display unit.  Then
    [prev_total_sent] becomes [total_sent] and [last_print_time] becomes a
    further reading of the clock. *)
Theorem report_if_due_emits (p : params) (v : vars) (w : world) (iv : Z) :
  interval p = Some iv ->
  Qle_bool (inject_Z iv) (clock w (ticks w) - last_print_time v) = true ->
  let now := clock w (S (ticks w)) in
  exists transfer bandwidth,
    report_if_due p v w
    = (mkVars (total_sent v) (total_sent v) (clock w (S (S (ticks w)))),
       mkWorld (clock w) (S (S (S (ticks w))))
         (trace w ++
          [Print (IntervalStats (connection_id p) (client_ip p) (client_port p)
                    (now - start_time p - inject_Z iv) (now - start_time p)
                    transfer (format p) bandwidth)])
         (fn_prev_total_sent w)) /\
    (transfer * interval_unit (format p)
     == inject_Z (total_sent v - prev_total_sent v))%Q.
Proof.
  intros Hiv Hdue now. unfold report_if_due. rewrite Hiv.
  unfold bind at 1. unfold time_time at 1. rewrite Hdue.
  unfold bind, time_time, print_interval_stats, print, emit, ret, bind,
    interval_unit.
  cbn [clock ticks trace fn_prev_total_sent].
  destruct (String.eqb (format p) "KB"); [|destruct (String.eqb (format p) "MB")];
    do 2 eexists; (split; [reflexivity|]); field.
Qed.

Lemma report_if_due_emits_witness :
  exists transfer bandwidth,
    report_if_due (Samples.by_time_reporting "KB") (mkVars 4096 2048 0)
                  Samples.world0
    = (mkVars 4096 4096 3,
       mkWorld Samples.steady_clock 4
         [Print (IntervalStats 1 "127.0.0.1" 50000 (2 - 0 - 1) (2 - 0)
                   transfer "KB" bandwidth)] 0) /\
    (transfer * 1024 == 2048)%Q.
Proof.
  exact (report_if_due_emits (Samples.by_time_reporting "KB")
           (mkVars 4096 2048 0) Samples.world0 1 eq_refl eq_refl).
Defined.

(** When the report is not due, nothing is printed and nothing is reset. *)
Lemma report_if_due_skips (p : params) (v : vars) (w : world) (iv : Z) :
  interval p = Some iv ->
  Qle_bool (inject_Z iv) (clock w (ticks w) - last_print_time v) = false ->
  report_if_due p v w
  = (v, mkWorld (clock w) (S (ticks w)) (trace w) (fn_prev_total_sent w)).
Proof.
  intros Hiv Hdue. unfold report_if_due. rewrite Hiv.
  unfold bind at 1. unfold time_time at 1. rewrite Hdue. reflexivity.
Qed.

(** C8 (as stated) fails: a session started at 0 that last reported at 0
    and, with [interval = 1], reaches the check 2.501 seconds in and reads
    2.502 inside [print_interval_stats] prints the window 1.502 - 2.502,
    not the window since the last report, 0 - 2.502. *)
Lemma report_window_counterexample :
  exists v' w' window_start window_end transfer bandwidth,
    report_if_due (Samples.by_time_reporting "B") Samples.vars0
                  (mkWorld Samples.late_clock 1 [] 0)
    = (v', w') /\
    trace w' = [Print (IntervalStats 1 "127.0.0.1" 50000
                         window_start window_end transfer "B" bandwidth)] /\
    (window_start == 751 # 500)%Q /\
    (window_end == 1251 # 500)%Q /\
    ~ (window_start
       == last_print_time Samples.vars0
          - start_time (Samples.by_time_reporting "B"))%Q.
Proof.
  do 6 eexists. split; [reflexivity|]. split; [reflexivity|].
  split; [reflexivity|]. split; [reflexivity | discriminate].
Qed.

End SendMode.

(** ** The termination handshake and the final summary *)

Module Teardown.
Import Client.

(** The epilogue, effect by effect. *)
Lemma epilogue_unfold (n : net) (p : params) (v : vars) (w : world) :
  epilogue n p v w =
  let tr := trace w ++ [Sleep 6; Sendall BYE] in
  let g := fn_prev_total_sent w in
  match recv 1000 n with
  | None => (Blocked, mkWorld (clock w) (ticks w) tr g)
  | Some data =>
      if bytes_eqb data ACK_BYE then
        let elapsed_time := (clock w (ticks w) - start_time p)%Q in
        if Qeq_bool elapsed_time 0
        then (Raised ZeroDivisionError, mkWorld (clock w) (S (ticks w)) tr g)
        else
          (Returned tt,
           mkWorld (clock w) (S (ticks w))
             (tr ++
              [Print Rule; Print Header;
               Print (Summary (client_ip p) (client_port p) elapsed_time
                        (convert_total (format p) (inject_Z (total_sent v)))
                        (format p)
                        (convert_bandwidth (format p)
                           (inject_Z (total_sent v) / elapsed_time)%Q))]) g)
      else (Returned tt, mkWorld (clock w) (ticks w) tr g)
  end.
Proof.
  unfold epilogue, bind, emit, print, emit, time_time, ret.
  cbn [clock ticks trace fn_prev_total_sent]. cbv zeta.
  destruct (recv 1000 n) as [data|];
    [|now rewrite <- !app_assoc].
  destruct (bytes_eqb data ACK_BYE);
    [|now rewrite <- !app_assoc].
  unfold bind. cbn [clock ticks trace fn_prev_total_sent].
  destruct (Qeq_bool _ 0); cbn [clock ticks trace fn_prev_total_sent];
    now rewrite <- !app_assoc.
Qed.

Lemma convert_total_unit (format : string) (x : Q) :
  (convert_total format x == x / summary_unit format)%Q.
Proof.
  unfold convert_total, summary_unit.
  destruct (String.eqb format "KB"); [|destruct (String.eqb format "MB")];
    try reflexivity.
  field.
Qed.

Lemma convert_bandwidth_unit (format : string) (x : Q) :
  (convert_bandwidth format x == x / summary_unit format)%Q.
Proof.
  unfold convert_bandwidth, summary_unit.
  destruct (String.eqb format "KB"); [|destruct (String.eqb format "MB")];
    try reflexivity.
  field.
Qed.

(** C4 (as the code behaves).  After [b'ACK: BYE'] the session prints a
    final summary whose bandwidth is [total_sent / elapsed_time] divided by
    the display unit of the configured format (1000 for KB, 1000000 for MB,
    1 otherwise): bytes per second in the display unit, with no factor 8,
    and so dependent on the format; the byte count is divided by the same
    unit. *)
Theorem epilogue_summary (n : net) (p : params) (v : vars) (w : world) :
  recv 1000 n = Some ACK_BYE ->
  let elapsed_time := (clock w (ticks w) - start_time p)%Q in
  Qeq_bool elapsed_time 0 = false ->
  exists total bandwidth,
    fst (epilogue n p v w) = Returned tt /\
    trace (snd (epilogue n p v w))
    = trace w ++
      [Sleep 6; Sendall BYE; Print Rule; Print Header;
       Print (Summary (client_ip p) (client_port p) elapsed_time total
                (format p) bandwidth)] /\
    (total == inject_Z (total_sent v) / summary_unit (format p))%Q /\
    (bandwidth
     == inject_Z (total_sent v) / elapsed_time / summary_unit (format p))%Q.
Proof.
  intros Hack elapsed_time Hne. rewrite epilogue_unfold. cbv zeta.
  rewrite Hack. replace (bytes_eqb ACK_BYE ACK_BYE) with true by reflexivity.
  fold elapsed_time. rewrite Hne. cbn [fst snd trace].
  do 2 eexists. split; [reflexivity|]. split.
  - rewrite <- app_assoc. reflexivity.
  - split; [apply convert_total_unit | apply convert_bandwidth_unit].
Qed.

Lemma epilogue_summary_witness :
  exists total bandwidth,
    fst (epilogue Samples.acking Samples.by_bytes (mkVars 2500 0 0)
           (mkWorld Samples.slow_clock 1 [] 0)) = Returned tt /\
    trace (snd (epilogue Samples.acking Samples.by_bytes (mkVars 2500 0 0)
                  (mkWorld Samples.slow_clock 1 [] 0)))
    = [Sleep 6; Sendall BYE; Print Rule; Print Header;
       Print (Summary "127.0.0.1" 50000 (8 - 0) total "MB" bandwidth)] /\
    (total == 2500 / 1000000)%Q /\
    (bandwidth == 2500 / (8 - 0) / 1000000)%Q.
Proof.
  exact (epilogue_summary Samples.acking Samples.by_bytes (mkVars 2500 0 0)
           (mkWorld Samples.slow_clock 1 [] 0) eq_refl eq_refl).
Defined.

(** C4 (as stated) fails: eight million bytes sent in a session of eight
    seconds are summarised with bandwidth 1000000 in format B, 1000 in KB
    and 1 in MB; none is the 8 (Mbps) of
    [totalBytes*8 / elapsedSeconds / 1e6], and they differ with the display
    unit. *)
Lemma summary_bandwidth_counterexample :
  let w := mkWorld Samples.slow_clock 1 [] 0 in
  let v := mkVars 8000000 0 0 in
  let summary format total bandwidth :=
    [Sleep 6; Sendall BYE; Print Rule; Print Header;
     Print (Summary "127.0.0.1" 50000 (8 - 0) total format bandwidth)] in
  exists tB bwB tKB bwKB tMB bwMB,
    trace (snd (epilogue Samples.acking (Samples.sending 8000000 "B") v w))
    = summary "B" tB bwB /\
    trace (snd (epilogue Samples.acking (Samples.sending 8000000 "KB") v w))
    = summary "KB" tKB bwKB /\
    trace (snd (epilogue Samples.acking (Samples.sending 8000000 "MB") v w))
    = summary "MB" tMB bwMB /\
    (bwB == 1000000)%Q /\ (bwKB == 1000)%Q /\ (bwMB == 1)%Q /\
    ~ (bwB == 8000000 * 8 / (8 - 0) / 1000000)%Q /\
    ~ (bwMB == 8000000 * 8 / (8 - 0) / 1000000)%Q /\
    ~ (bwB == bwKB)%Q.
Proof.
  do 6 eexists. repeat (split; [reflexivity|]).
  repeat split; discriminate.
Qed.

Lemma wait_all_returned (rs1 rs2 : list (option (outcome unit * world)))
    (w : world) :
  Main.wait_all (rs1 ++ Some (Returned tt, w) :: rs2) = Main.wait_all (rs1 ++ rs2).
Proof.
  unfold Main.wait_all. rewrite !forallb_app. cbn [forallb Main.finished andb].
  destruct (forallb Main.finished rs1 && forallb Main.finished rs2);
    [|reflexivity].
  induction rs1 as [|[[[[]|e|] w1]|] rs1 IH]; cbn; auto.
Qed.

(** C5 (as the code behaves).  When [s.recv] after [b'BYE'] yields anything
    but exactly [b'ACK: BYE'], the session raises nothing.  If a payload
    arrived (the empty one of a closed socket included) the session returns
    normally after the marker, without a final summary, and the
    orchestrator's wait ends as if the session were not there; if nothing
    ever arrives the session stays blocked in [recv], which has no
    timeout. *)
Theorem epilogue_without_ack (n : net) (p : params) (v : vars) (w : world) :
  recv 1000 n <> Some ACK_BYE ->
  epilogue n p v w
  = (match recv 1000 n with Some _ => Returned tt | None => Blocked end,
     mkWorld (clock w) (ticks w) (trace w ++ [Sleep 6; Sendall BYE])
             (fn_prev_total_sent w)) /\
  (forall e, fst (epilogue n p v w) <> Raised e) /\
  (recv 1000 n <> None ->
   forall rs1 rs2,
     Main.wait_all (rs1 ++ Some (epilogue n p v w) :: rs2)
     = Main.wait_all (rs1 ++ rs2)).
Proof.
  intros Hne. rewrite epilogue_unfold. cbv zeta.
  destruct (recv 1000 n) as [data|].
  - assert (Hd : bytes_eqb data ACK_BYE = false).
    { apply bytes_eqb_neq. congruence. }
    rewrite Hd. split; [reflexivity|]. split; [discriminate|].
    intros _ rs1 rs2. apply wait_all_returned.
  - split; [reflexivity|]. split; [discriminate|].
    intros H. now contradiction H.
Qed.

Lemma epilogue_without_ack_witness :
  recv 1000 Samples.closing <> Some ACK_BYE /\
  epilogue Samples.closing Samples.by_bytes (mkVars 2500 0 0)
           (mkWorld Samples.steady_clock 1 [] 0)
  = (Returned tt,
     mkWorld Samples.steady_clock 1 [Sleep 6; Sendall BYE] 0) /\
  (forall e,
      fst (epilogue Samples.closing Samples.by_bytes (mkVars 2500 0 0)
             (mkWorld Samples.steady_clock 1 [] 0)) <> Raised e) /\
  (recv 1000 Samples.closing <> None ->
   forall rs1 rs2,
     Main.wait_all
       (rs1 ++ Some (epilogue Samples.closing Samples.by_bytes
                       (mkVars 2500 0 0)
                       (mkWorld Samples.steady_clock 1 [] 0)) :: rs2)
     = Main.wait_all (rs1 ++ rs2)).
Proof.
  assert (H : recv 1000 Samples.closing <> Some ACK_BYE) by discriminate.
  split; [exact H|].
  exact (epilogue_without_ack Samples.closing Samples.by_bytes
           (mkVars 2500 0 0) (mkWorld Samples.steady_clock 1 [] 0) H).
Defined.

End Teardown.

(** ** [main] and its exit status *)

Module Orchestrator.
Import Main.

(** C5 (as stated) fails: a one-connection client run whose peer closes
    (or answers something else) instead of acknowledging has a session
    that returns normally, and the run ends with status 0; nothing is
    raised or reported as failed.  With a peer that never answers, the
    session and the run simply never end. *)
Lemma missing_ack_counterexample :
  let a := Samples.client_args (Some 5) None in
  let quiet_end :=
    [Some (Returned tt,
           Client.mkWorld Samples.slow_clock 1
             [Client.Print (Client.Connecting 1 "127.0.0.1" 8088);
              Client.Connect "127.0.0.1" 8088;
              Client.Print (Client.Connected 1 "127.0.0.1" 8088);
              Client.SendStart 0;
              Client.Sendall (zeros 5);
              Client.Sleep 6;
              Client.Sendall BYE] 0)] in
  sessions (main 10 (Samples.facing Samples.closing) a) = quiet_end /\
  sessions (main 10 (Samples.facing Samples.garbling) a) = quiet_end /\
  status (main 10 (Samples.facing Samples.closing) a) = Returned tt /\
  exit_status (main 10 (Samples.facing Samples.closing) a) = Some 0 /\
  exit_status (main 10 (Samples.facing Samples.garbling) a) = Some 0 /\
  status (main 10 (Samples.facing Samples.silent) a) = Blocked.
Proof. repeat split; reflexivity. Qed.

(** C6 (as stated) fails: with neither [-s] nor [-c], and with [-c -n 5B
    -t 3], [main] prints its error and returns, so the exit status is 0. *)
Lemma exit_status_counterexample :
  exit_status (main 10 (Samples.facing Samples.acking) Samples.no_mode_args)
  = Some 0 /\
  exit_status (main 10 (Samples.facing Samples.acking)
                 (Samples.client_args (Some 5) (Some 3)))
  = Some 0.
Proof. split; reflexivity. Qed.

(** C6 (as the code behaves).  When server mode is not chosen and either
    client mode is not chosen either, or both [--num] and [--time] are
    given, [main] prints one error line and returns: no server is started,
    no session is submitted, so no connection is attempted, and the exit
    status is 0. *)
Theorem main_rejects (fuel : nat) (env : Z -> Client.net * Client.world)
    (a : args) :
  server a = false ->
  client a = false \/ (exists n t, num a = Some n /\ time a = Some t) ->
  main fuel env a
  = mkRun [if client a
           then "Error: you cannot use both --num and --time at the same time."
           else "Error: you must run either in server or client mode."]
          None [] (Returned tt) /\
  exit_status (main fuel env a) = Some 0 /\
  attempts_connection (main fuel env a) = false.
Proof.
  intros Hs Hcase.
  assert (H : main fuel env a
              = mkRun [if client a
                       then "Error: you cannot use both --num and --time at the same time."
                       else "Error: you must run either in server or client mode."]
                      None [] (Returned tt)).
  { unfold main. rewrite Hs. cbn [negb andb].
    destruct (client a) eqn:Hc; [|reflexivity].
    destruct Hcase as [Hc' | (n & t & Hn & Ht)]; [discriminate|].
    now rewrite Hn, Ht. }
  rewrite H. repeat split; reflexivity.
Qed.

Lemma main_rejects_witness :
  let a := Samples.client_args (Some 5) (Some 3) in
  main 10 (Samples.facing Samples.acking) a
  = mkRun ["Error: you cannot use both --num and --time at the same time."]
          None [] (Returned tt) /\
  exit_status (main 10 (Samples.facing Samples.acking) a) = Some 0 /\
  attempts_connection (main 10 (Samples.facing Samples.acking) a) = false.
Proof.
  exact (main_rejects 10 (Samples.facing Samples.acking)
           (Samples.client_args (Some 5) (Some 3)) eq_refl
           (or_intror (ex_intro _ 5 (ex_intro _ 3 (conj eq_refl eq_refl))))).
Defined.

(** A whole session, [-n 2500B -f B] against an acknowledging peer: three
    chunks, the marker, and a summary that shows the 2500 bytes. *)
Example client_2500_bytes :
  Client.client 10 Samples.acking "127.0.0.1" 8088 (Some 2500) None "B" None 1
                (Client.mkWorld Samples.slow_clock 0 [] 0)
  = Some (Returned tt,
          Client.mkWorld Samples.slow_clock 2
            [Client.Print (Client.Connecting 1 "127.0.0.1" 8088);
             Client.Connect "127.0.0.1" 8088;
             Client.Print (Client.Connected 1 "127.0.0.1" 8088);
             Client.SendStart 0;
             Client.Sendall (zeros 1000);
             Client.Sendall (zeros 1000);
             Client.Sendall (zeros 500);
             Client.Sleep 6;
             Client.Sendall BYE;
             Client.Print Client.Rule;
             Client.Print Client.Header;
             Client.Print (Client.Summary "127.0.0.1" 50000 (8 - 0) 2500 "B"
                             (2500 / (8 - 0)))] 0).
Proof. reflexivity. Qed.

(** For contrast: a client run that is accepted does attempt its
    connection, and ends with status 0 after the acknowledged transfer. *)
Example accepted_run_connects :
  attempts_connection
    (main 10 (Samples.facing Samples.acking) (Samples.client_args (Some 5) None))
  = true /\
  exit_status
    (main 10 (Samples.facing Samples.acking) (Samples.client_args (Some 5) None))
  = Some 0.
Proof. split; reflexivity. Qed.

End Orchestrator.

(** ** Display units *)

Module Units.

(** C7.  In format KB the two reports use different bases.  The statistics
    line [handle_client] prints shows the [n] bytes it counted as
    [n / 1000]; the interval report [print_interval_stats] prints shows the
    bytes of the interval as [(total_sent - prev_total_sent) / 1024].  For
    one and the same byte count the two figures differ by 3/128000 of it. *)
Theorem kb_units_differ
    (fuel : nat) (t0 t1 : Q) (sockname addr : string * Z) (c c' : Server.conn)
    (lines : list Server.line)
    (connection_id : Z) (client_ip : string) (client_port : Z)
    (start_time : Q) (prev_total_sent interval total_sent : Z)
    (w : Client.world) :
  Server.handle_client fuel t0 t1 sockname c addr "KB"
  = Some (Returned (lines, c')) ->
  exists n received rate window_start window_end transfer bandwidth,
    Server.recv_loop fuel c 0 = Some (n, c') /\
    lines = [Server.Connected (fst addr) (snd addr)
                              (fst sockname) (snd sockname);
             Server.Header;
             Server.Stats addr (t1 - t0) received "KB" rate] /\
    (received == inject_Z n / 1000)%Q /\
    Client.trace
      (snd (Client.print_interval_stats connection_id client_ip client_port
              start_time prev_total_sent "KB" interval total_sent w))
    = Client.trace w ++
      [Client.Print
         (Client.IntervalStats connection_id client_ip client_port
            window_start window_end transfer "KB" bandwidth)] /\
    (transfer == inject_Z (total_sent - prev_total_sent) / 1024)%Q /\
    (n = total_sent - prev_total_sent ->
     (received - transfer == inject_Z n * (3 # 128000))%Q).
Proof.
  unfold Server.handle_client. intros H.
  destruct (Server.recv_loop fuel c 0) as [[n c1]|]; [|discriminate].
  destruct (Qeq_bool (t1 - t0) 0); [discriminate|].
  injection H as <- <-.
  do 7 eexists. split; [reflexivity|]. split; [reflexivity|].
  split; [reflexivity|]. split; [reflexivity|]. split; [reflexivity|].
  intros ->. unfold Server.convert_total. cbn [String.eqb Ascii.eqb Bool.eqb].
  field.
Qed.

Lemma kb_units_differ_witness :
  exists n received rate window_start window_end transfer bandwidth,
    Server.recv_loop 3 (Server.mkConn [zeros 1000; zeros 24; BYE] []) 0
    = Some (n, Server.mkConn [] [ACK_BYE]) /\
    [Server.Connected "10.0.0.2" 40000 "10.0.0.1" 8088; Server.Header;
     Server.Stats ("10.0.0.2", 40000) (1 - 0) (1027 / 1000) "KB"
                  (1027 / (1 - 0) / 1000)]
    = [Server.Connected "10.0.0.2" 40000 "10.0.0.1" 8088; Server.Header;
       Server.Stats ("10.0.0.2", 40000) (1 - 0) received "KB" rate] /\
    (received == inject_Z n / 1000)%Q /\
    Client.trace
      (snd (Client.print_interval_stats 1 "10.0.0.2" 40000 0 0 "KB" 1 1027
              Samples.world0))
    = Client.trace Samples.world0 ++
      [Client.Print
         (Client.IntervalStats 1 "10.0.0.2" 40000
            window_start window_end transfer "KB" bandwidth)] /\
    (transfer == inject_Z (1027 - 0) / 1024)%Q /\
    (n = 1027 - 0 -> (received - transfer == inject_Z n * (3 # 128000))%Q).
Proof.
  exact (kb_units_differ 3 0 1 ("10.0.0.1", 8088) ("10.0.0.2", 40000)
           (Server.mkConn [zeros 1000; zeros 24; BYE] [])
           (Server.mkConn [] [ACK_BYE])
           [Server.Connected "10.0.0.2" 40000 "10.0.0.1" 8088; Server.Header;
            Server.Stats ("10.0.0.2", 40000) (1 - 0) (1027 / 1000) "KB"
                         (1027 / (1 - 0) / 1000)]
           1 "10.0.0.2" 40000 0 0 1 1027 Samples.world0 eq_refl).
Defined.

End Units.

(** ** Sessions do not interfere *)

Module ThreadFacts.
Import Client Threads.
Local Open Scope world_scope.

Lemma oblivious_ret {A} (a : A) : oblivious (ret a).
Proof. intros g w. reflexivity. Qed.

Lemma oblivious_bind {A B} (m : M A) (k : A -> M B) :
  oblivious m -> (forall a, oblivious (k a)) -> oblivious (bind m k).
Proof.
  intros Hm Hk g w. unfold bind. rewrite Hm.
  destruct (m w) as [a w1]. cbn [fst snd]. apply Hk.
Qed.

Lemma oblivious_time_time : oblivious time_time.
Proof. intros g w. reflexivity. Qed.

Lemma oblivious_emit (e : event) : oblivious (emit e).
Proof. intros g w. reflexivity. Qed.

Ltac oblivious :=
  repeat first
    [ apply oblivious_bind; [|intros ?]
    | apply oblivious_ret | apply oblivious_time_time | apply oblivious_emit
    | match goal with
      | |- oblivious (if ?b then _ else _) => destruct b
      | |- oblivious (let (_, _) := ?x in _) => destruct x
      | |- oblivious (match ?x with _ => _ end) => destruct x
      end ].

Lemma oblivious_print_interval_stats (connection_id : Z) (client_ip : string)
    (client_port : Z) (start_time : Q) (prev_total_sent : Z) (format : string)
    (interval total_sent : Z) :
  oblivious (print_interval_stats connection_id client_ip client_port
               start_time prev_total_sent format interval total_sent).
Proof. unfold print_interval_stats, print. oblivious. Qed.

Lemma oblivious_report_if_due (p : params) (v : vars) :
  oblivious (report_if_due p v).
Proof.
  unfold report_if_due. destruct (interval p); [|apply oblivious_ret].
  apply oblivious_bind; [apply oblivious_time_time|]. intros t.
  destruct (Qle_bool _ _); [|apply oblivious_ret].
  apply oblivious_bind; [apply oblivious_print_interval_stats|]. intros _.
  oblivious.
Qed.

Lemma oblivious_turn (p : params) (v : vars) : oblivious (turn p v).
Proof.
  unfold turn. destruct (num_bytes p) as [n|]; [|destruct (duration p) as [d|]].
  - unfold iter_num. destruct (_ <? _); [|apply oblivious_ret].
    apply oblivious_bind; [apply oblivious_emit|]. intros _.
    apply oblivious_bind; [apply oblivious_report_if_due|]. intros v'.
    apply oblivious_ret.
  - unfold iter_time.
    apply oblivious_bind; [apply oblivious_time_time|]. intros t.
    destruct (negb _); [|apply oblivious_ret].
    apply oblivious_bind; [apply oblivious_emit|]. intros _.
    apply oblivious_bind; [apply oblivious_report_if_due|]. intros v'.
    apply oblivious_ret.
  - apply oblivious_ret.
Qed.

(** A turn leaves the attribute as it found it and does the same to the
    session whatever the attribute is. *)
Lemma step_session_attr (g : Z) (s : session) :
  step_session g s = (g, snd (step_session 0 s)).
Proof.
  unfold step_session. destruct (s_running s); [|reflexivity].
  pose proof (oblivious_turn (s_params s) (s_vars s) g
                (mkWorld (s_clock s) (s_ticks s) (s_trace s) 0)) as H.
  unfold set_attr in H at 1. cbn [clock ticks trace] in H. rewrite H.
  destruct (turn _ _ (mkWorld _ _ _ 0)) as [[v'|] w']; reflexivity.
Qed.

Lemma alone_attr (k : nat) (g : Z) (s : session) :
  alone k g s = (g, snd (alone k 0 s)).
Proof.
  revert g s; induction k as [|k IH]; intros g s; [reflexivity|].
  cbn [alone]. rewrite (step_session_attr g), (step_session_attr 0).
  rewrite (IH g), (IH 0). reflexivity.
Qed.

Lemma nth_error_set_nth_same {A} (i : nat) (x y : A) (l : list A) :
  nth_error l i = Some y -> nth_error (set_nth i x l) i = Some x.
Proof.
  revert i; induction l as [|z l IH]; intros [|i]; cbn; try discriminate; auto.
Qed.

Lemma nth_error_set_nth_other {A} (i j : nat) (x : A) (l : list A) :
  i <> j -> nth_error (set_nth j x l) i = nth_error l i.
Proof.
  revert i j; induction l as [|z l IH]; intros [|i] [|j] H; cbn;
    try reflexivity; try congruence.
  apply IH. congruence.
Qed.

(** The scheduler's step seen from thread [i]. *)
Lemma step_thread (i j : nat) (pr : process) (s : session) :
  nth_error (threads pr) i = Some s ->
  attr (step j pr) = attr pr /\
  nth_error (threads (step j pr)) i
  = Some (if Nat.eq_dec j i then snd (step_session 0 s) else s).
Proof.
  intros Hs. unfold step.
  destruct (Nat.eq_dec j i) as [->|Hji].
  - rewrite Hs, step_session_attr. cbn [attr threads]. split; [reflexivity|].
    now apply (nth_error_set_nth_same i _ s).
  - destruct (nth_error (threads pr) j) as [sj|]; [|now split].
    rewrite step_session_attr. cbn [attr threads]. split; [reflexivity|].
    rewrite nth_error_set_nth_other by congruence. exact Hs.
Qed.

(** After any schedule, thread [i] is where its own turns alone take it. *)
Lemma run_thread (schedule : list nat) :
  forall (pr : process) (i : nat) (s : session),
    nth_error (threads pr) i = Some s ->
    attr (run schedule pr) = attr pr /\
    nth_error (threads (run schedule pr)) i
    = Some (snd (alone (count_occ Nat.eq_dec schedule i) 0 s)).
Proof.
  induction schedule as [|j schedule IH]; intros pr i s Hs.
  - split; [reflexivity | exact Hs].
  - cbn [run count_occ].
    destruct (step_thread i j pr s Hs) as [Ha Hn].
    destruct (IH _ _ _ Hn) as [Ha' Hn'].
    split; [congruence|]. rewrite Hn'.
    destruct (Nat.eq_dec j i) as [->|Hji]; [|reflexivity].
    cbn [alone]. rewrite (step_session_attr 0). reflexivity.
Qed.

End ThreadFacts.

Module Noninterference.
Import Client Threads ThreadFacts.

(** C9.  Take any process, any of its session threads [i], and any
    schedule interleaving the loop turns of all threads.  After the
    schedule, thread [i] (its locals, its clock position, its output, and
    so its interval reports) is exactly where the same number of its own
    turns take it when it runs alone, whatever value [g] the function
    attribute [print_interval_stats.prev_total_sent] has in that solo run;
    and the attribute itself is never changed. *)
Theorem run_noninterference (schedule : list nat) (pr : process) (i : nat)
    (s : session) (g : Z) :
  nth_error (threads pr) i = Some s ->
  let solo := snd (alone (count_occ Nat.eq_dec schedule i) g s) in
  exists s',
    nth_error (threads (run schedule pr)) i = Some s' /\
    s' = solo /\
    interval_reports (s_trace s') = interval_reports (s_trace solo) /\
    attr (run schedule pr) = attr pr.
Proof.
  intros Hs solo. subst solo.
  destruct (run_thread schedule pr i s Hs) as [Ha Hn].
  rewrite alone_attr. cbn [snd].
  eexists. split; [exact Hn|]. repeat split. exact Ha.
Qed.

Lemma run_noninterference_witness :
  let solo := snd (alone 2 42 (sample_thread 1 "KB")) in
  exists s',
    nth_error (threads (run [1; 0; 1; 0; 1]%nat sample_process)) 0 = Some s' /\
    s' = solo /\
    interval_reports (s_trace s') = interval_reports (s_trace solo) /\
    attr (run [1; 0; 1; 0; 1]%nat sample_process) = attr sample_process.
Proof.
  exact (run_noninterference [1; 0; 1; 0; 1]%nat sample_process 0
           (sample_thread 1 "KB") 42 eq_refl).
Defined.

(** What that session reports, alone or not: one interval, the third
    second, 1000 bytes shown in KB. *)
Example sample_thread_reports :
  interval_reports (s_trace (snd (alone 2 42 (sample_thread 1 "KB"))))
  = [IntervalStats 1 "127.0.0.1" 50001 (3 - 0 - 1) (3 - 0) (1000 / 1024) "KB"
                   (1000 / (1024 * 1024) / 1 * 1024)].
Proof. reflexivity. Qed.

(** Two runs that differ in everything but thread [i] and the number of
    turns it gets leave thread [i] in the same state. *)
Corollary two_runs_agree (schedule1 schedule2 : list nat)
    (pr1 pr2 : process) (i1 i2 : nat) (s : session) :
  nth_error (threads pr1) i1 = Some s ->
  nth_error (threads pr2) i2 = Some s ->
  count_occ Nat.eq_dec schedule1 i1 = count_occ Nat.eq_dec schedule2 i2 ->
  nth_error (threads (run schedule1 pr1)) i1
  = nth_error (threads (run schedule2 pr2)) i2.
Proof.
  intros H1 H2 Hc.
  destruct (run_thread schedule1 pr1 i1 s H1) as [_ ->].
  destruct (run_thread schedule2 pr2 i2 s H2) as [_ ->].
  now rewrite Hc.
Qed.

End Noninterference.

(** ** The argument converters *)

Module ArgparseFacts.
Import Argparse.

Lemma substring_app_r (p s : string) (m : nat) :
  substring (String.length p) m (p ++ s)%string = substring 0 m s.
Proof. induction p as [|c p IH]; simpl; auto. Qed.

Lemma substring_all (s : string) (m : nat) :
  (String.length s <= m)%nat -> substring 0 m s = s.
Proof.
  revert m; induction s as [|c s IH]; intros [|m] H; simpl in *;
    try reflexivity; try lia.
  f_equal. apply IH. lia.
Qed.

Lemma substring_app_l (p s : string) :
  substring 0 (String.length p) (p ++ s)%string = p.
Proof. induction p as [|c p IH]; simpl; [now destruct s | now rewrite IH]. Qed.

Lemma length_app (p s : string) :
  String.length (p ++ s)%string = (String.length p + String.length s)%nat.
Proof. induction p as [|c p IH]; simpl; auto. Qed.

Lemma app_assoc_string (a b c : string) :
  ((a ++ b) ++ c = a ++ (b ++ c))%string.
Proof. induction a as [|x a IH]; simpl; [reflexivity | now rewrite IH]. Qed.

(** [(p + s)[-len(s):] == s] and [(p + s)[:-len(s)] == p]. *)
Lemma last_chars_app (p s : string) :
  last_chars (String.length s) (p ++ s)%string = s.
Proof.
  unfold last_chars. rewrite length_app.
  replace (String.length p + String.length s - String.length s)%nat
    with (String.length p) by lia.
  rewrite substring_app_r. now apply substring_all.
Qed.

Lemma but_last_app (p s : string) :
  but_last (String.length s) (p ++ s)%string = p.
Proof.
  unfold but_last. rewrite length_app.
  replace (String.length p + String.length s - String.length s)%nat
    with (String.length p) by lia.
  apply substring_app_l.
Qed.

Lemma substring_split (s : string) (k m : nat) :
  (String.length s - k <= m)%nat ->
  (substring 0 k s ++ substring k m s)%string = s.
Proof.
  revert k m; induction s as [|c s IH]; intros [|k] m H; simpl in *.
  - now destruct m.
  - reflexivity.
  - destruct m; [lia|]. simpl. f_equal. apply substring_all. lia.
  - f_equal. apply IH. lia.
Qed.

(** [value[:-n] + value[-n:] == value]. *)
Lemma slices_join (n : nat) (value : string) :
  (but_last n value ++ last_chars n value)%string = value.
Proof. unfold but_last, last_chars. apply substring_split. lia. Qed.

(** A string whose last two characters are [xB] ends in [B]. *)
Lemma last_two_last_one (value : string) (x : ascii) :
  last_chars 2 value = String x "B" -> last_chars 1 value = "B".
Proof.
  intros H. rewrite <- (slices_join 2 value), H.
  change (String x "B") with (String x "" ++ "B")%string.
  rewrite <- app_assoc_string.
  apply (last_chars_app _ "B").
Qed.

Lemma substring_length (s : string) (k m : nat) :
  String.length (substring k m s) = Nat.min m (String.length s - k).
Proof.
  revert k m; induction s as [|c s IH]; intros [|k] [|m]; simpl;
    try reflexivity; rewrite IH; simpl; lia.
Qed.

(** [(p + 'B')[-2:] == p[-1:] + 'B'] *)
Lemma last_two_app_B (p : string) :
  last_chars 2 (p ++ "B")%string = (last_chars 1 p ++ "B")%string.
Proof.
  destruct p as [|c p]; [reflexivity|].
  set (v := String c p).
  assert (Hq : String.length (last_chars 1 v) = 1%nat).
  { unfold last_chars. rewrite substring_length. subst v.
    cbn [String.length]. lia. }
  rewrite <- (slices_join 1 v) at 1.
  rewrite app_assoc_string.
  replace 2%nat with (String.length (last_chars 1 v ++ "B")%string)
    by (rewrite length_app, Hq; reflexivity).
  apply last_chars_app.
Qed.

Lemma app_B_inj (q : string) (x : ascii) :
  (q ++ "B")%string = String x "B" -> q = String x "".
Proof.
  destruct q as [|c [|d q]]; simpl; intros H.
  - discriminate.
  - now injection H as ->.
  - injection H as _ H. destruct q; discriminate.
Qed.

End ArgparseFacts.

Module Converters.
Import Argparse ArgparseFacts.

(** X1.  [num_bytes] reads a size by its suffix: a numeral followed by
    [KB] is worth a thousand times what [int] makes of the numeral, by
    [MB] a million times, and by a bare [B] (the numeral not itself ending
    in [K] or [M]) the number itself.  Whatever [int] cannot read is a
    [ValueError]; the sign of the number is not looked at. *)
Theorem num_bytes_suffix (int : string -> option Z) (p : string) :
  num_bytes int (p ++ "KB")
  = match int p with Some n => Value (n * 1000) | None => ValueError end /\
  num_bytes int (p ++ "MB")
  = match int p with Some n => Value (n * 1000000) | None => ValueError end /\
  (last_chars 1 p <> "K" -> last_chars 1 p <> "M" ->
   num_bytes int (p ++ "B")
   = match int p with Some n => Value n | None => ValueError end).
Proof.
  pose proof (last_chars_app p "KB") as LK.
  pose proof (but_last_app p "KB") as BK.
  pose proof (last_chars_app p "MB") as LM.
  pose proof (but_last_app p "MB") as BM.
  pose proof (last_chars_app p "B") as LB.
  pose proof (but_last_app p "B") as BB.
  cbn [String.length] in *.
  unfold num_bytes. repeat split.
  - rewrite LK, BK. reflexivity.
  - rewrite LM, BM. reflexivity.
  - intros HK HM.
    rewrite last_two_app_B.
    destruct (String.eqb (last_chars 1 p ++ "B") "KB") eqn:EK.
    { apply String.eqb_eq, app_B_inj in EK. contradiction. }
    destruct (String.eqb (last_chars 1 p ++ "B") "MB") eqn:EM.
    { apply String.eqb_eq, app_B_inj in EM. contradiction. }
    rewrite LB, BB. reflexivity.
Qed.

Lemma num_bytes_suffix_witness :
  num_bytes int_decimal "12KB" = Value 12000 /\
  num_bytes int_decimal "12MB" = Value 12000000 /\
  (last_chars 1 "12" <> "K" -> last_chars 1 "12" <> "M" ->
   num_bytes int_decimal "12B" = Value 12).
Proof. exact (num_bytes_suffix int_decimal "12"). Defined.

(** X2.  [num_bytes] raises its own [ArgumentTypeError] exactly on the
    strings that do not end in a capital [B] (the empty string, a bare
    number, a lower-case suffix); on those the outcome does not depend on
    [int], and the message is always the same. *)
Theorem num_bytes_rejects (int : string -> option Z) (value : string) :
  ((exists msg, num_bytes int value = ArgumentTypeError msg)
   <-> last_chars 1 value <> "B") /\
  (last_chars 1 value <> "B" ->
   forall int', num_bytes int' value
   = ArgumentTypeError "Invalid format for --num. Use B, KB, or MB.").
Proof.
  assert (Hrej : last_chars 1 value <> "B" ->
                 forall int', num_bytes int' value
                 = ArgumentTypeError "Invalid format for --num. Use B, KB, or MB.").
  { intros Hne int'. unfold num_bytes.
    destruct (String.eqb (last_chars 2 value) "KB") eqn:EK.
    { apply String.eqb_eq, last_two_last_one in EK. contradiction. }
    destruct (String.eqb (last_chars 2 value) "MB") eqn:EM.
    { apply String.eqb_eq, last_two_last_one in EM. contradiction. }
    apply String.eqb_neq in Hne. now rewrite Hne. }
  split; [split|exact Hrej].
  - intros [msg H] HB. unfold num_bytes in H.
    destruct (String.eqb (last_chars 2 value) "KB");
      [destruct (int (but_last 2 value)); discriminate|].
    destruct (String.eqb (last_chars 2 value) "MB");
      [destruct (int (but_last 2 value)); discriminate|].
    apply String.eqb_eq in HB. rewrite HB in H.
    destruct (int (but_last 1 value)); discriminate.
  - intros Hne. eexists. now apply Hrej.
Qed.

(** X3.  [check_positive] returns [n] exactly when [int] reads the string
    as [n] and [n > 0]; zero and negative numbers are refused with an
    [ArgumentTypeError] that quotes the string; what [int] cannot read
    comes out as its [ValueError]. *)
Theorem check_positive_spec (int : string -> option Z) (value : string) :
  (forall n, check_positive int value = Value n
             <-> int value = Some n /\ 0 < n) /\
  (forall msg, check_positive int value = ArgumentTypeError msg
               <-> (exists n, int value = Some n /\ n <= 0) /\
                   msg = (value ++ " is an invalid positive value")%string) /\
  (check_positive int value = ValueError <-> int value = None).
Proof.
  unfold check_positive.
  destruct (int value) as [n|]; [destruct (Z.leb_spec n 0) as [Hle|Hgt]|].
  - split; [|split].
    + intros m. split; [discriminate|].
      intros [H1 H2]. injection H1 as <-. lia.
    + intros msg. split.
      * intros H. injection H as <-. split; [eauto | reflexivity].
      * intros [_ ->]. reflexivity.
    + split; discriminate.
  - split; [|split].
    + intros m. split.
      * intros H. injection H as <-. auto.
      * intros [H1 _]. now injection H1 as <-.
    + intros msg. split; [discriminate|].
      intros [[m [H1 H2]] _]. injection H1 as <-. lia.
    + split; discriminate.
  - split; [|split].
    + intros m. split; [discriminate | intros [H _]; discriminate].
    + intros msg. split; [discriminate|].
      intros [[m [H _]] _]. discriminate.
    + split; reflexivity.
Qed.

End Converters.

(** ** More on the receive loop *)

Module ReceiveFacts.
Import Server ServerFacts.

Lemma total_len_cons (seg : bytes) (segs : list bytes) :
  total_len (seg :: segs) = len seg + total_len segs.
Proof. reflexivity. Qed.

Lemma len_nonneg (data : bytes) : 0 <= len data.
Proof. unfold len. lia. Qed.

(** A read moves bytes from the inbox to the caller: none is lost, none
    is made up, and at most [bufsize] are handed over. *)
Lemma recv_conserves (bufsize : nat) (c : conn) :
  len (fst (recv bufsize c)) + total_len (inbox (snd (recv bufsize c)))
  = total_len (inbox c) /\
  outbox (snd (recv bufsize c)) = outbox c /\
  (List.length (fst (recv bufsize c)) <= bufsize)%nat.
Proof.
  unfold recv. destruct (inbox c) as [|seg rest] eqn:E.
  - cbn [fst snd]. rewrite E. repeat split. simpl. lia.
  - destruct (Nat.leb_spec (List.length seg) bufsize) as [Hle|Hgt];
      cbn [fst snd inbox outbox]; rewrite !total_len_cons.
    + repeat split. assumption.
    + repeat split.
      * unfold len. rewrite length_firstn, length_skipn. lia.
      * rewrite length_firstn. lia.
Qed.

Lemma bytes_eqb_len (a b : bytes) : bytes_eqb a b = true -> len a = len b.
Proof. intros H. apply bytes_eqb_eq in H. now subst. Qed.

Lemma recv_loop_accounting (fuel : nat) :
  forall (c : conn) (total : Z) (t : Z) (c' : conn),
    recv_loop fuel c total = Some (t, c') ->
    outbox c' = outbox c ++ [ACK_BYE] /\
    t = total + (total_len (inbox c) - total_len (inbox c')) /\
    total + 3 <= t.
Proof.
  induction fuel as [|fuel IH]; intros c total t c' H; [discriminate|].
  cbn [recv_loop] in H.
  destruct (recv_conserves 1000 c) as (Hlen & Hout & _).
  destruct (recv 1000 c) as [data c1]. cbn [fst snd] in *.
  pose proof (len_nonneg data) as Hnn.
  destruct (bytes_eqb data BYE) eqn:E.
  - injection H as <- <-. apply bytes_eqb_len in E.
    change (len BYE) with 3 in E.
    unfold sendall. cbn [inbox outbox]. rewrite Hout.
    repeat split; lia.
  - apply IH in H as (Ho & Ht & Hge). rewrite Hout in Ho.
    repeat split; [assumption | lia | lia].
Qed.

End ReceiveFacts.

Module ReceiveEdges.
Import Server ServerFacts ReceiveFacts.

(** X4.  Whenever the receive loop ends, it has sent exactly one
    [b'ACK: BYE'] and nothing else, and what it has added to
    [total_received] is exactly the number of bytes it took from the
    connection, the marker's three included (so at least 3). *)
Theorem recv_loop_accounts (fuel : nat) (c : conn) (total : Z) (t : Z)
    (c' : conn) :
  recv_loop fuel c total = Some (t, c') ->
  outbox c' = outbox c ++ [ACK_BYE] /\
  t - total = total_len (inbox c) - total_len (inbox c') /\
  3 <= t - total.
Proof.
  intros H. apply recv_loop_accounting in H as (Ho & Ht & Hge).
  repeat split; [assumption | lia | lia].
Qed.

Lemma recv_loop_accounts_witness :
  recv_loop 5 (mkConn [zeros 1500; BYE; zeros 7] []) 0
  = Some (1503, mkConn [zeros 7] [ACK_BYE]) /\
  [ACK_BYE] = [] ++ [ACK_BYE] /\
  1503 - 0 = total_len [zeros 1500; BYE; zeros 7] - total_len [zeros 7] /\
  3 <= 1503 - 0.
Proof.
  assert (H : recv_loop 5 (mkConn [zeros 1500; BYE; zeros 7] []) 0
              = Some (1503, mkConn [zeros 7] [ACK_BYE])) by reflexivity.
  split; [exact H|].
  exact (recv_loop_accounts 5 (mkConn [zeros 1500; BYE; zeros 7] []) 0 1503
           (mkConn [zeros 7] [ACK_BYE]) H).
Defined.

(** X5.  The marker counts only when a read returns it alone.  If it
    arrives in one segment with the payload before it, and the read returns
    both together, the loop does not see it and, the peer having nothing
    more to send, never ends.  If the segment is cut by the read exactly in
    front of the marker (1000 bytes of payload), the next read returns the
    marker alone and the loop ends. *)
Theorem marker_must_come_alone (payload : bytes) (out : list bytes)
    (total : Z) :
  payload <> [] ->
  ((List.length payload + 3 <= 1000)%nat ->
   forall fuel, recv_loop fuel (mkConn [payload ++ BYE] out) total = None) /\
  (List.length payload = 1000%nat ->
   recv_loop 2 (mkConn [payload ++ BYE] out) total
   = Some (total + 1003, mkConn [] (out ++ [ACK_BYE]))).
Proof.
  intros Hne. split.
  - intros Hlen [|fuel]; [reflexivity|].
    cbn [recv_loop]. rewrite recv_short by (rewrite length_app; simpl; lia).
    rewrite bytes_eqb_neq.
    + apply recv_loop_closed.
    + intros E. apply (f_equal (@List.length byte)) in E.
      rewrite length_app in E. simpl in E.
      destruct payload; [contradiction | simpl in E; lia].
  - intros Hlen. cbn [recv_loop].
    assert (Hrecv : recv 1000 (mkConn [payload ++ BYE] out)
                    = (payload, mkConn [BYE] out)).
    { unfold recv. cbn [inbox outbox].
      replace (List.length (payload ++ BYE) <=? 1000)%nat with false
        by (symmetry; apply Nat.leb_gt; rewrite length_app; simpl; lia).
      rewrite <- Hlen, firstn_app, skipn_app, firstn_all, skipn_all.
      rewrite Nat.sub_diag. cbn [firstn skipn app]. now rewrite app_nil_r. }
    rewrite Hrecv.
    rewrite bytes_eqb_neq.
    + rewrite recv_short by (simpl; lia).
      replace (bytes_eqb BYE BYE) with true by reflexivity.
      unfold sendall, len. cbn [inbox outbox]. rewrite Hlen.
      f_equal. f_equal. simpl. lia.
    + intros E. apply (f_equal (@List.length byte)) in E.
      rewrite Hlen in E. discriminate.
Qed.

Lemma marker_must_come_alone_witness :
  zeros 5 <> [] /\
  ((List.length (zeros 5) + 3 <= 1000)%nat ->
   forall fuel, recv_loop fuel (mkConn [zeros 5 ++ BYE] []) 0 = None) /\
  (List.length (zeros 5) = 1000%nat ->
   recv_loop 2 (mkConn [zeros 5 ++ BYE] []) 0
   = Some (0 + 1003, mkConn [] ([] ++ [ACK_BYE]))).
Proof.
  assert (H : zeros 5 <> []) by discriminate.
  split; [exact H|].
  exact (marker_must_come_alone (zeros 5) [] 0 H).
Defined.

(** X6.  What [handle_client] prints once the loop has ended with [n]
    bytes counted.  If no time has passed between its two readings of the
    clock, the division raises [ZeroDivisionError] and no statistics are
    printed.  Otherwise the statistics line shows the byte count and the
    rate [n / elapsed_time], both divided by the unit of the format: 1000
    for [KB], 1000000 for [MB], and 1 for any other string, so that an
    unknown format is printed as its own label over a figure in bytes. *)
Theorem handle_client_stats (fuel : nat) (t0 t1 : Q)
    (sockname addr : string * Z) (c c' : conn) (format : string) (n : Z) :
  recv_loop fuel c 0 = Some (n, c') ->
  (Qeq_bool (t1 - t0) 0 = true ->
   handle_client fuel t0 t1 sockname c addr format
   = Some (Raised ZeroDivisionError)) /\
  (Qeq_bool (t1 - t0) 0 = false ->
   exists received rate,
     handle_client fuel t0 t1 sockname c addr format
     = Some (Returned
               ([Connected (fst addr) (snd addr) (fst sockname) (snd sockname);
                 Header;
                 Stats addr (t1 - t0) received format rate], c')) /\
     (received * Reporting.server_unit format == inject_Z n)%Q /\
     (rate * Reporting.server_unit format * (t1 - t0) == inject_Z n)%Q /\
     (format <> "KB" -> format <> "MB" -> received = inject_Z n)).
Proof.
  intros Hloop. unfold handle_client. rewrite Hloop. split.
  - intros ->. reflexivity.
  - intros Hne. rewrite Hne.
    assert (Hnz : ~ (t1 - t0 == 0)%Q).
    { intros E. apply Qeq_bool_iff in E. congruence. }
    do 2 eexists. split; [reflexivity|].
    unfold convert_total, convert_bandwidth, Reporting.server_unit.
    destruct (String.eqb_spec format "KB") as [->|HK];
      [|destruct (String.eqb_spec format "MB") as [->|HM]].
    + split; [field|]. split; [field; exact Hnz|]. congruence.
    + split; [field|]. split; [field; exact Hnz|]. congruence.
    + split; [ring|]. split; [field; exact Hnz|]. reflexivity.
Qed.

Lemma handle_client_stats_witness :
  recv_loop 3 (mkConn [zeros 1000; BYE] []) 0
  = Some (1003, mkConn [] [ACK_BYE]) /\
  (Qeq_bool (8 - 0) 0 = true ->
   handle_client 3 0 8 ("10.0.0.1", 8088) (mkConn [zeros 1000; BYE] [])
                 ("10.0.0.2", 40000) "GB"
   = Some (Raised ZeroDivisionError)) /\
  (Qeq_bool (8 - 0) 0 = false ->
   exists received rate,
     handle_client 3 0 8 ("10.0.0.1", 8088) (mkConn [zeros 1000; BYE] [])
                   ("10.0.0.2", 40000) "GB"
     = Some (Returned
               ([Connected "10.0.0.2" 40000 "10.0.0.1" 8088; Header;
                 Stats ("10.0.0.2", 40000) (8 - 0) received "GB" rate],
                mkConn [] [ACK_BYE])) /\
     (received * Reporting.server_unit "GB" == inject_Z 1003)%Q /\
     (rate * Reporting.server_unit "GB" * (8 - 0) == inject_Z 1003)%Q /\
     ("GB" <> "KB" -> "GB" <> "MB" -> received = inject_Z 1003)).
Proof.
  assert (H : recv_loop 3 (mkConn [zeros 1000; BYE] []) 0
              = Some (1003, mkConn [] [ACK_BYE])) by reflexivity.
  split; [exact H|].
  exact (handle_client_stats 3 0 8 ("10.0.0.1", 8088) ("10.0.0.2", 40000)
           (mkConn [zeros 1000; BYE] []) (mkConn [] [ACK_BYE]) "GB" 1003 H).
Defined.

End ReceiveEdges.

(** ** More on the send loops *)

Module LoopFacts.
Import Client ClientFacts Reporting.
Local Open Scope world_scope.

Lemma reported_bytes_app (t1 t2 : list event) :
  (reported_bytes (t1 ++ t2) == reported_bytes t1 + reported_bytes t2)%Q.
Proof.
  induction t1 as [|e t1 IH]; [cbn; ring|].
  destruct e as [| | | |[]]; cbn [app reported_bytes]; try exact IH.
  rewrite IH. ring.
Qed.

Lemma interval_reports_app (t1 t2 : list event) :
  Threads.interval_reports (t1 ++ t2)
  = Threads.interval_reports t1 ++ Threads.interval_reports t2.
Proof. unfold Threads.interval_reports. apply flat_map_app. Qed.

(** [report_if_due], effect by effect. *)
Lemma report_if_due_unfold (p : params) (v : vars) (w : world) :
  report_if_due p v w =
  match interval p with
  | None => (v, w)
  | Some iv =>
      if Qle_bool (inject_Z iv) (clock w (ticks w) - last_print_time v) then
        let now := clock w (S (ticks w)) in
        let delta := inject_Z (total_sent v - prev_total_sent v) in
        let rate := (delta / (1024 * 1024) / inject_Z iv)%Q in
        let shown :=
          if String.eqb (format p) "KB" then ((delta / 1024)%Q, (rate * 1024)%Q)
          else if String.eqb (format p) "MB"
          then ((delta / (1024 * 1024))%Q, rate)
          else (delta, rate) in
        (mkVars (total_sent v) (total_sent v) (clock w (S (S (ticks w)))),
         mkWorld (clock w) (S (S (S (ticks w))))
           (trace w ++
            [Print (IntervalStats (connection_id p) (client_ip p)
                      (client_port p)
                      (now - start_time p - inject_Z iv) (now - start_time p)
                      (fst shown) (format p) (snd shown))])
           (fn_prev_total_sent w))
      else
        (v, mkWorld (clock w) (S (ticks w)) (trace w) (fn_prev_total_sent w))
  end.
Proof.
  unfold report_if_due. destruct (interval p) as [iv|]; [|reflexivity].
  unfold bind at 1. unfold time_time at 1.
  destruct (Qle_bool _ _); [|reflexivity].
  unfold bind, time_time, print_interval_stats, print, emit, ret, bind.
  cbn [clock ticks trace fn_prev_total_sent]. cbv zeta.
  destruct (String.eqb (format p) "KB"); [|destruct (String.eqb (format p) "MB")];
    reflexivity.
Qed.

(** What [report_if_due] comes to. *)
Lemma report_if_due_spec (p : params) (v : vars) (w : world) :
  total_sent (fst (report_if_due p v w)) = total_sent v /\
  ((trace (snd (report_if_due p v w)) = trace w /\
    prev_total_sent (fst (report_if_due p v w)) = prev_total_sent v)
   \/
   (exists a b x bw,
       interval p <> None /\
       trace (snd (report_if_due p v w))
       = trace w ++
         [Print (IntervalStats (connection_id p) (client_ip p) (client_port p)
                   a b x (format p) bw)] /\
       (x * interval_unit (format p)
        == inject_Z (total_sent v - prev_total_sent v))%Q /\
       prev_total_sent (fst (report_if_due p v w)) = total_sent v)).
Proof.
  rewrite report_if_due_unfold.
  destruct (interval p) as [iv|];
    [|split; [reflexivity | left; split; reflexivity]].
  destruct (Qle_bool _ _); [|split; [reflexivity | left; split; reflexivity]].
  cbv zeta. cbn [fst snd trace total_sent prev_total_sent].
  split; [reflexivity|]. right.
  do 4 eexists. split; [discriminate|]. split; [reflexivity|].
  split; [|reflexivity].
  unfold interval_unit.
  destruct (String.eqb (format p) "KB"); [|destruct (String.eqb (format p) "MB")];
    cbn [fst]; field.
Qed.

(** With no interval, the report is no operation at all. *)
Lemma report_if_due_off (p : params) (v : vars) (w : world) :
  interval p = None -> report_if_due p v w = (v, w).
Proof. intros H. unfold report_if_due. now rewrite H. Qed.

Lemma send_then_report_spec (p : params) (k : Z) (v : vars) (w : world) :
  0 < k <= 1000 ->
  let r := report_if_due p
             (mkVars (total_sent v + k) (prev_total_sent v) (last_print_time v))
             (mkWorld (clock w) (ticks w) (trace w ++ [Sendall (zeros k)])
                      (fn_prev_total_sent w)) in
  turn_spec p v w (fst r) (snd r).
Proof.
  intros Hk r. subst r.
  set (v1 := mkVars _ _ _). set (w1 := mkWorld _ _ _ _).
  destruct (report_if_due_spec p v1 w1)
    as [Ht [[Htr Hp] | (a & b & x & bw & Hiv & Htr & Hx & Hp)]].
  - exists k, []. split; [assumption|]. split.
    + rewrite Htr. subst w1. cbn [trace]. reflexivity.
    + split; [exact Ht|]. left. split; [reflexivity | exact Hp].
  - exists k. eexists. split; [assumption|]. split.
    + rewrite Htr. subst w1. cbn [trace]. rewrite <- app_assoc. reflexivity.
    + split; [exact Ht|]. right. exists a, b, x, bw.
      split; [assumption|]. split; [reflexivity|].
      rewrite Ht. subst v1. cbn [total_sent prev_total_sent] in *.
      split; [exact Hx | exact Hp].
Qed.

Lemma iter_num_spec (p : params) (n : Z) (v : vars) (w : world) :
  (forall v1 w1, iter_num p n v w = (Some v1, w1) ->
                 total_sent v < n /\ turn_spec p v w v1 w1) /\
  (forall w1, iter_num p n v w = (None, w1) -> w1 = w /\ n <= total_sent v).
Proof.
  unfold iter_num. destruct (Z.ltb_spec (total_sent v) n) as [Hlt|Hge].
  - split; [|intros w1 H; unfold bind, emit in H;
             destruct (report_if_due _ _ _); discriminate].
    intros v1 w1 H. split; [assumption|].
    pose proof (send_then_report_spec p (Z.min 1000 (n - total_sent v)) v w
                  ltac:(lia)) as Hs.
    cbv zeta in Hs. unfold bind, emit, ret in H.
    destruct (report_if_due _ _ _) as [v2 w2]. cbn [fst snd] in Hs.
    injection H as <- <-. exact Hs.
  - split; [discriminate|]. intros w1 H. injection H as <-. now split.
Qed.

Lemma iter_time_spec (p : params) (e : Q) (v : vars) (w : world) :
  (forall v1 w1, iter_time p e v w = (Some v1, w1) ->
                 Qle_bool e (clock w (ticks w)) = false /\
                 turn_spec p v w v1 w1) /\
  (forall w1, iter_time p e v w = (None, w1) ->
              trace w1 = trace w /\ clock w1 = clock w /\
              ticks w1 = S (ticks w) /\
              Qle_bool e (clock w (ticks w)) = true).
Proof.
  rewrite iter_time_unfold. cbv zeta.
  destruct (Qle_bool e (clock w (ticks w))) eqn:E.
  - split; [discriminate|]. intros w1 H. injection H as <-. now repeat split.
  - split; [|intros w1 H; destruct (report_if_due _ _ _); discriminate].
    intros v1 w1 H. split; [reflexivity|].
    pose proof (send_then_report_spec p 1000 v
                  (mkWorld (clock w) (S (ticks w)) (trace w)
                           (fn_prev_total_sent w)) ltac:(lia)) as Hs.
    cbv zeta in Hs. cbn [clock ticks trace fn_prev_total_sent] in Hs.
    destruct (report_if_due _ _ _) as [v2 w2]. cbn [fst snd] in Hs.
    injection H as <- <-. exact Hs.
Qed.

Lemma sent_sizes_cons_send (data : bytes) (t : list event) :
  sent_sizes (Sendall data :: t) = len data :: sent_sizes t.
Proof. reflexivity. Qed.

Lemma sum_cons (x : Z) (l : list Z) : sum (x :: l) = x + sum l.
Proof. reflexivity. Qed.

(** What a send loop made of such turns comes to when it ends. *)
Lemma while_spec (p : params) (iter : vars -> M (option vars)) :
  (forall v w v1 w1, iter v w = (Some v1, w1) -> turn_spec p v w v1 w1) ->
  (forall v w w1, iter v w = (None, w1) -> trace w1 = trace w) ->
  forall (fuel : nat) (v : vars) (w : world) (v' : vars) (w' : world),
    while fuel iter v w = Some (v', w') ->
    prev_total_sent v <= total_sent v ->
    exists evs,
      trace w' = trace w ++ evs /\
      Forall loop_event evs /\
      sum (sent_sizes evs) = total_sent v' - total_sent v /\
      (reported_bytes evs
       == inject_Z (prev_total_sent v' - prev_total_sent v))%Q /\
      prev_total_sent v <= prev_total_sent v' <= total_sent v' /\
      (interval p = None ->
       Threads.interval_reports evs = [] /\
       prev_total_sent v' = prev_total_sent v).
Proof.
  intros Hgo Hstop.
  induction fuel as [|fuel IH]; intros v w v' w' H Hinv; [discriminate|].
  cbn [while] in H. destruct (iter v w) as [[v1|] w1] eqn:Hit.
  - apply Hgo in Hit as (k & evs1 & Hk & Htr1 & Ht1 & Hrep).
    assert (Hinv1 : prev_total_sent v1 <= total_sent v1).
    { destruct Hrep as [[_ Hp] | (_ & _ & _ & _ & _ & _ & _ & Hp)]; lia. }
    destruct (IH v1 w1 v' w' H Hinv1)
      as (evs' & Htr' & Hall & Hsum & Hrb & Hbnd & Hoff).
    exists (Sendall (zeros k) :: evs1 ++ evs').
    assert (Hs1 : sent_sizes evs1 = [] /\ Forall loop_event evs1).
    { destruct Hrep as [[-> _] | (a & b & x & bw & _ & -> & _)].
      - split; [reflexivity | constructor].
      - split; [reflexivity | repeat constructor]. }
    destruct Hs1 as [Hs1 Hall1].
    split; [|split; [|split; [|split; [|split]]]].
    + rewrite Htr', Htr1. rewrite <- app_assoc. reflexivity.
    + constructor; [exists k; now split|]. apply Forall_app. now split.
    + rewrite sent_sizes_cons_send, sum_cons, sent_sizes_app, Hs1.
      cbn [app]. rewrite Hsum, len_zeros by lia. lia.
    + cbn [reported_bytes]. rewrite reported_bytes_app, Hrb.
      destruct Hrep as [[-> Hp] | (a & b & x & bw & _ & -> & Hx & Hp)].
      * cbn [reported_bytes]. rewrite Hp. ring.
      * cbn [reported_bytes]. rewrite Hx, Hp.
        rewrite Qplus_0_r, <- inject_Z_plus.
        apply inject_Z_injective. lia.
    + destruct Hrep as [[_ Hp] | (_ & _ & _ & _ & _ & _ & _ & Hp)]; lia.
    + intros Hnone. destruct (Hoff Hnone) as [Hir Hpp].
      destruct Hrep as [[-> Hp] | (_ & _ & _ & _ & Hsome & _)];
        [|contradiction].
      split; [exact Hir | congruence].
  - injection H as <- <-. exists []. rewrite (Hstop _ _ _ Hit).
    rewrite app_nil_r, !Z.sub_diag.
    repeat split; try reflexivity; try lia. constructor.
Qed.

(** The same for whichever loop [send_loop] runs. *)
Lemma send_loop_spec (p : params) (fuel : nat) (v : vars) (w : world)
    (v' : vars) (w' : world) :
  send_loop fuel p v w = Some (v', w') ->
  prev_total_sent v <= total_sent v ->
  exists evs,
    trace w' = trace w ++ evs /\
    Forall loop_event evs /\
    sum (sent_sizes evs) = total_sent v' - total_sent v /\
    (reported_bytes evs
     == inject_Z (prev_total_sent v' - prev_total_sent v))%Q /\
    prev_total_sent v <= prev_total_sent v' <= total_sent v' /\
    (interval p = None ->
     Threads.interval_reports evs = [] /\
     prev_total_sent v' = prev_total_sent v).
Proof.
  unfold send_loop. destruct (num_bytes p) as [n|]; [|destruct (duration p) as [d|]].
  - apply while_spec.
    + intros v0 w0 v1 w1 H. now apply (iter_num_spec p n v0 w0).
    + intros v0 w0 w1 H. apply (iter_num_spec p n v0 w0) in H as [-> _].
      reflexivity.
  - apply while_spec.
    + intros v0 w0 v1 w1 H. now apply (iter_time_spec p _ v0 w0) in H.
    + intros v0 w0 w1 H. now apply (iter_time_spec p _ v0 w0) in H.
  - intros H Hinv. injection H as <- <-. exists [].
    rewrite app_nil_r, !Z.sub_diag.
    repeat split; try reflexivity; try lia. constructor.
Qed.

(** Without [interval], a turn of the byte-count loop does not touch the
    clock, and a turn of the duration loop reads it once. *)
Lemma iter_num_quiet (p : params) (n : Z) (v : vars) (w : world) :
  interval p = None ->
  iter_num p n v w =
  if total_sent v <? n then
    (Some (mkVars (total_sent v + Z.min 1000 (n - total_sent v))
                  (prev_total_sent v) (last_print_time v)),
     mkWorld (clock w) (ticks w)
             (trace w ++ [Sendall (zeros (Z.min 1000 (n - total_sent v)))])
             (fn_prev_total_sent w))
  else (None, w).
Proof.
  intros H. unfold iter_num. destruct (total_sent v <? n); [|reflexivity].
  unfold bind, emit, ret. now rewrite report_if_due_off.
Qed.

Lemma iter_time_quiet (p : params) (e : Q) (v : vars) (w : world) :
  interval p = None ->
  iter_time p e v w =
  if Qle_bool e (clock w (ticks w)) then
    (None, mkWorld (clock w) (S (ticks w)) (trace w) (fn_prev_total_sent w))
  else
    (Some (mkVars (total_sent v + 1000) (prev_total_sent v)
                  (last_print_time v)),
     mkWorld (clock w) (S (ticks w)) (trace w ++ [Sendall (zeros 1000)])
             (fn_prev_total_sent w)).
Proof.
  intros H. rewrite iter_time_unfold. cbv zeta.
  destruct (Qle_bool e (clock w (ticks w))); [reflexivity|].
  now rewrite report_if_due_off.
Qed.

Lemma while_num_quiet (p : params) (n : Z) :
  interval p = None ->
  forall (fuel : nat) (v : vars) (w : world) (v' : vars) (w' : world),
    while fuel (iter_num p n) v w = Some (v', w') ->
    ticks w' = ticks w /\
    prev_total_sent v' = prev_total_sent v /\
    exists evs,
      trace w' = trace w ++ evs /\ Threads.interval_reports evs = [].
Proof.
  intros Hoff. induction fuel as [|fuel IH]; intros v w v' w' H;
    [discriminate|].
  cbn [while] in H. rewrite (iter_num_quiet p n v w Hoff) in H.
  destruct (total_sent v <? n).
  - apply IH in H as (Ht & Hp & evs & Htr & Hir).
    cbn [ticks trace prev_total_sent] in *.
    repeat split; try assumption.
    eexists. split; [rewrite Htr, <- app_assoc; reflexivity | exact Hir].
  - injection H as <- <-. repeat split.
    exists []. now rewrite app_nil_r.
Qed.

Lemma while_time_quiet (p : params) (e : Q) :
  interval p = None ->
  forall (fuel : nat) (v : vars) (w : world) (v' : vars) (w' : world),
    while fuel (iter_time p e) v w = Some (v', w') ->
    total_sent v' - total_sent v
    = 1000 * (Z.of_nat (ticks w') - Z.of_nat (ticks w) - 1) /\
    prev_total_sent v' = prev_total_sent v /\
    exists evs,
      trace w' = trace w ++ evs /\ Threads.interval_reports evs = [].
Proof.
  intros Hoff. induction fuel as [|fuel IH]; intros v w v' w' H;
    [discriminate|].
  cbn [while] in H. rewrite (iter_time_quiet p e v w Hoff) in H.
  destruct (Qle_bool e (clock w (ticks w))).
  - injection H as <- <-. cbn [ticks trace]. repeat split; [lia|].
    exists []. now rewrite app_nil_r.
  - apply IH in H as (Hs & Hp & evs & Htr & Hir).
    cbn [ticks trace total_sent prev_total_sent] in *.
    repeat split; [lia | assumption |].
    eexists. split; [rewrite Htr, <- app_assoc; reflexivity | exact Hir].
Qed.

(** The duration loop ends on a reading at or past the deadline. *)
Lemma while_time_deadline (p : params) (e : Q) :
  forall (fuel : nat) (v : vars) (w : world) (v' : vars) (w' : world),
    while fuel (iter_time p e) v w = Some (v', w') ->
    clock w' = clock w /\ (ticks w < ticks w')%nat /\
    Qle_bool e (clock w (Nat.pred (ticks w'))) = true.
Proof.
  induction fuel as [|fuel IH]; intros v w v' w' H; [discriminate|].
  cbn [while] in H. destruct (iter_time p e v w) as [[v1|] w1] eqn:Hit.
  - apply iter_time_clock in Hit as (Hc & Ht & _).
    apply IH in H as (Hc' & Ht' & Hd). rewrite Hc in *.
    repeat split; [assumption | lia | assumption].
  - injection H as <- <-.
    apply (iter_time_spec p e v w) in Hit as (_ & Hc & Ht & Hd).
    rewrite Ht. cbn [Nat.pred]. repeat split; [assumption | lia | assumption].
Qed.

End LoopFacts.

Module Intervals.
Import Client ClientFacts Reporting LoopFacts.

(** X7.  An interval report is one line whose window is exactly
    [interval] long and ends at the time since the start of the session.
    In the formats [KB] and [MB] the rate is the byte column divided by
    [interval]; in any other format the byte column is in bytes while the
    rate stays in units of 1024 * 1024 bytes per second.  The function
    reads the clock once and leaves the function attribute alone. *)
Theorem print_interval_stats_line (connection_id : Z) (client_ip : string)
    (client_port : Z) (start_time : Q) (prev_total_sent : Z) (format : string)
    (interval total_sent : Z) (w : world) :
  interval <> 0 ->
  exists a b x bw,
    print_interval_stats connection_id client_ip client_port start_time
      prev_total_sent format interval total_sent w
    = (tt, mkWorld (clock w) (S (ticks w))
             (trace w ++
              [Print (IntervalStats connection_id client_ip client_port
                        a b x format bw)])
             (fn_prev_total_sent w)) /\
    (b == clock w (ticks w) - start_time)%Q /\
    (b - a == inject_Z interval)%Q /\
    (format = "KB" \/ format = "MB" -> (bw * inject_Z interval == x)%Q) /\
    (format <> "KB" -> format <> "MB" ->
     x = inject_Z (total_sent - prev_total_sent) /\
     (bw * inject_Z interval * (1024 * 1024) == x)%Q).
Proof.
  intros Hiv.
  assert (Hq : ~ (inject_Z interval == 0)%Q).
  { intros E. apply (inject_Z_injective interval 0) in E. contradiction. }
  unfold print_interval_stats, bind, time_time, print, emit.
  cbn [clock ticks trace fn_prev_total_sent].
  destruct (String.eqb_spec format "KB") as [->|HK];
    [|destruct (String.eqb_spec format "MB") as [->|HM]];
    do 4 eexists; (split; [reflexivity|]); (split; [reflexivity|]);
    (split; [ring|]); split.
  - intros _. field. exact Hq.
  - intros H. contradiction.
  - intros _. field. exact Hq.
  - intros _ H. contradiction.
  - intros [H|H]; contradiction.
  - intros _ _. split; [reflexivity|]. field. exact Hq.
Qed.

Lemma print_interval_stats_line_witness :
  exists a b x bw,
    print_interval_stats 1 "127.0.0.1" 50000 0 1024 "B" 2 5120 Samples.world0
    = (tt, mkWorld Samples.steady_clock 2
             [Print (IntervalStats 1 "127.0.0.1" 50000 a b x "B" bw)] 0) /\
    (b == Samples.steady_clock 1 - 0)%Q /\
    (b - a == inject_Z 2)%Q /\
    ("B" = "KB" \/ "B" = "MB" -> (bw * inject_Z 2 == x)%Q) /\
    ("B" <> "KB" -> "B" <> "MB" ->
     x = inject_Z (5120 - 1024) /\
     (bw * inject_Z 2 * (1024 * 1024) == x)%Q).
Proof.
  exact (print_interval_stats_line 1 "127.0.0.1" 50000 0 1024 "B" 2 5120
           Samples.world0 ltac:(discriminate)).
Defined.

(** X8.  The interval reports of a send loop account for every byte at
    most once: when the loop ends, the byte columns of all the reports
    printed add up (in bytes) to [prev_total_sent], which never exceeds
    [total_sent]; the bytes sent after the last report, [total_sent -
    prev_total_sent], appear in no interval report.  The chunks sent add
    up to [total_sent]. *)
Theorem interval_reports_account (p : params) (v : vars) (w : world)
    (fuel : nat) (v' : vars) (w' : world) :
  total_sent v = 0 ->
  prev_total_sent v = 0 ->
  send_loop fuel p v w = Some (v', w') ->
  exists evs,
    trace w' = trace w ++ evs /\
    (reported_bytes evs == inject_Z (prev_total_sent v'))%Q /\
    0 <= prev_total_sent v' <= total_sent v' /\
    sum (sent_sizes evs) = total_sent v'.
Proof.
  intros Ht Hp H.
  apply send_loop_spec in H as (evs & Htr & _ & Hsum & Hrb & Hbnd & _);
    [|lia].
  exists evs. rewrite Ht in Hsum. rewrite Hp in Hrb, Hbnd.
  rewrite Z.sub_0_r in Hsum, Hrb. now repeat split.
Qed.

Lemma interval_reports_account_witness :
  exists v' w',
    send_loop 10 (Samples.by_time_reporting "KB") Samples.vars0 Samples.world0
    = Some (v', w') /\
    exists evs,
      trace w' = trace Samples.world0 ++ evs /\
      (reported_bytes evs == inject_Z (prev_total_sent v'))%Q /\
      0 <= prev_total_sent v' <= total_sent v' /\
      sum (sent_sizes evs) = total_sent v'.
Proof.
  do 2 eexists. split; [reflexivity|].
  exact (interval_reports_account (Samples.by_time_reporting "KB")
           Samples.vars0 Samples.world0 10%nat _ _ eq_refl eq_refl eq_refl).
Defined.

(** X9.  Without [-i] a send loop prints no interval report and never
    moves [prev_total_sent]; the byte-count loop then never reads the clock,
    and the duration loop reads it once per turn, so that it has sent 1000
    bytes for every reading but the last. *)
Theorem no_interval_no_report (p : params) (v : vars) (w : world)
    (fuel : nat) (v' : vars) (w' : world) :
  interval p = None ->
  send_loop fuel p v w = Some (v', w') ->
  (exists evs,
      trace w' = trace w ++ evs /\ Threads.interval_reports evs = []) /\
  prev_total_sent v' = prev_total_sent v /\
  (num_bytes p <> None -> ticks w' = ticks w) /\
  (num_bytes p = None -> duration p <> None ->
   total_sent v' - total_sent v
   = 1000 * (Z.of_nat (ticks w') - Z.of_nat (ticks w) - 1)).
Proof.
  intros Hoff H. unfold send_loop in H.
  destruct (num_bytes p) as [n|]; [|destruct (duration p) as [d|]].
  - apply (while_num_quiet p n Hoff) in H as (Ht & Hp & Hevs).
    split; [exact Hevs|]. split; [exact Hp|]. split; [intros _; exact Ht|].
    intros Hn. discriminate.
  - apply (while_time_quiet p _ Hoff) in H as (Hs & Hp & Hevs).
    split; [exact Hevs|]. split; [exact Hp|]. split; [|intros _ _; exact Hs].
    intros Hn. contradiction.
  - injection H as <- <-.
    split; [exists []; now rewrite app_nil_r|]. split; [reflexivity|].
    split; [intros Hn; contradiction | intros _ Hd; contradiction].
Qed.

Lemma no_interval_no_report_witness :
  exists v' w',
    send_loop 10 Samples.by_time Samples.vars0 Samples.world0 = Some (v', w') /\
    (exists evs,
        trace w' = trace Samples.world0 ++ evs /\
        Threads.interval_reports evs = []) /\
    prev_total_sent v' = prev_total_sent Samples.vars0 /\
    (num_bytes Samples.by_time <> None -> ticks w' = ticks Samples.world0) /\
    (num_bytes Samples.by_time = None -> duration Samples.by_time <> None ->
     total_sent v' - total_sent Samples.vars0
     = 1000 * (Z.of_nat (ticks w') - Z.of_nat (ticks Samples.world0) - 1)).
Proof.
  do 2 eexists. split; [reflexivity|].
  exact (no_interval_no_report Samples.by_time Samples.vars0 Samples.world0
           10%nat _ _ eq_refl eq_refl).
Defined.

End Intervals.

(** ** Whole sessions *)

Module SessionFacts.
Import Client ClientFacts Reporting LoopFacts.

(** The parameters and locals a session starts its loop with. *)
Lemma prologue_unfold (n : net) (server_ip : string) (port : Z)
    (num_bytes duration : option Z) (format : string) (interval : option Z)
    (connection_id : Z) (w : world) :
  prologue n server_ip port num_bytes duration format interval connection_id w
  =
  let t0 := clock w (ticks w) in
  if connect_ok n then
    (Returned
       (mkParams server_ip port num_bytes duration format interval
                 connection_id (fst (sockname n)) (snd (sockname n)) t0,
        mkVars 0 0 t0),
     mkWorld (clock w) (S (ticks w))
       (trace w ++
        [Print (Connecting connection_id server_ip port);
         Connect server_ip port;
         Print (Connected connection_id server_ip port);
         SendStart t0])
       (fn_prev_total_sent w))
  else
    (Raised ConnectionRefusedError,
     mkWorld (clock w) (ticks w)
       (trace w ++
        [Print (Connecting connection_id server_ip port);
         Connect server_ip port])
       (fn_prev_total_sent w)).
Proof.
  unfold prologue, bind, print, emit, time_time, ret.
  cbn [clock ticks trace fn_prev_total_sent]. cbv zeta.
  destruct (connect_ok n).
  - destruct (sockname n) as [ip pt]. cbn [fst snd clock ticks trace].
    rewrite <- !app_assoc. reflexivity.
  - rewrite <- !app_assoc. reflexivity.
Qed.

(** What the epilogue adds to the trace, whatever the peer answers. *)
Lemma epilogue_trace (n : net) (p : params) (v : vars) (w : world) :
  exists tail,
    trace (snd (epilogue n p v w)) = trace w ++ [Sleep 6; Sendall BYE] ++ tail /\
    (tail = [] \/
     exists elapsed bw,
       tail = [Print Rule; Print Header;
               Print (Summary (client_ip p) (client_port p) elapsed
                        (convert_total (format p) (inject_Z (total_sent v)))
                        (format p) bw)]) /\
    (fst (epilogue n p v w) = Returned tt \/
     fst (epilogue n p v w) = Blocked \/
     fst (epilogue n p v w) = Raised ZeroDivisionError).
Proof.
  rewrite Teardown.epilogue_unfold. cbv zeta.
  destruct (recv 1000 n) as [data|].
  - destruct (bytes_eqb data ACK_BYE).
    + destruct (Qeq_bool _ 0).
      * exists []. cbn [fst snd trace]. rewrite app_nil_r. auto.
      * eexists. cbn [fst snd trace]. rewrite <- app_assoc.
        split; [reflexivity|]. split; [right; eauto | auto].
    + exists []. cbn [fst snd trace]. rewrite app_nil_r. auto.
  - exists []. cbn [fst snd trace]. rewrite app_nil_r. auto.
Qed.

(** A session whose connection is made, as far as its loop. *)
Lemma client_unfold (fuel : nat) (n : net) (server_ip : string) (port : Z)
    (num_bytes duration : option Z) (format : string) (interval : option Z)
    (connection_id : Z) (w : world) :
  connect_ok n = true ->
  let t0 := clock w (ticks w) in
  let p := mkParams server_ip port num_bytes duration format interval
                    connection_id (fst (sockname n)) (snd (sockname n)) t0 in
  let w1 := mkWorld (clock w) (S (ticks w))
              (trace w ++
               [Print (Connecting connection_id server_ip port);
                Connect server_ip port;
                Print (Connected connection_id server_ip port);
                SendStart t0])
              (fn_prev_total_sent w) in
  client fuel n server_ip port num_bytes duration format interval
         connection_id w
  = match send_loop fuel p (mkVars 0 0 t0) w1 with
    | Some (v', w2) => Some (epilogue n p v' w2)
    | None => None
    end.
Proof.
  intros Hok. unfold client. rewrite prologue_unfold. cbv zeta.
  rewrite Hok. reflexivity.
Qed.

(** The byte-count loop ends, having sent its budget. *)
Lemma while_num_ends (p : params) (n : Z) (v : vars) (w : world)
    (fuel : nat) :
  0 < n ->
  total_sent v = 0 ->
  (Z.to_nat n < fuel)%nat ->
  exists v' w',
    while fuel (iter_num p n) v w = Some (v', w') /\ total_sent v' = n.
Proof.
  intros Hpos Hv Hfuel.
  assert (Hq : 0 <= (n - 1) / 1000) by (apply Z.div_pos; lia).
  assert (Hr : 0 < n - 1000 * ((n - 1) / 1000) <= 1000).
  { pose proof (Z.mod_pos_bound (n - 1) 1000 ltac:(lia)).
    pose proof (Z.div_mod (n - 1) 1000 ltac:(lia)). lia. }
  assert (Hqn : (n - 1) / 1000 <= n - 1).
  { apply Z.div_le_upper_bound; lia. }
  destruct (while_iter_num p n (Z.to_nat ((n - 1) / 1000)) v w fuel _ Hr)
    as (v' & w' & evs & Hw & Ht & _).
  { rewrite Z2Nat.id by lia. lia. }
  { lia. }
  eauto.
Qed.

End SessionFacts.

Module Sessions.
Import Client ClientFacts Reporting LoopFacts SessionFacts.

(** X10.  A duration-limited send loop ends on a clock reading at or past
    [start_time + duration].  So, on a clock that never goes backwards, the
    elapsed time in the final summary of an acknowledged session is at
    least [duration], and the summary is printed without error. *)
Theorem duration_is_served (n : net) (p : params) (d : Z) (v : vars)
    (w : world) (fuel : nat) (v' : vars) (w' : world) :
  num_bytes p = None ->
  duration p = Some d ->
  0 < d ->
  (forall i j, (i <= j)%nat -> (clock w i <= clock w j)%Q) ->
  send_loop fuel p v w = Some (v', w') ->
  recv 1000 n = Some ACK_BYE ->
  (start_time p + inject_Z d <= clock w (Nat.pred (ticks w')))%Q /\
  exists elapsed total bw,
    fst (epilogue n p v' w') = Returned tt /\
    trace (snd (epilogue n p v' w'))
    = trace w' ++
      [Sleep 6; Sendall BYE; Print Rule; Print Header;
       Print (Summary (client_ip p) (client_port p) elapsed total (format p)
                bw)] /\
    (inject_Z d <= elapsed)%Q.
Proof.
  intros Hn Hd Hpos Hmono H Hack.
  unfold send_loop in H. rewrite Hn, Hd in H.
  apply while_time_deadline in H as (Hc & Ht & Hdl).
  apply Qle_bool_iff in Hdl.
  split; [exact Hdl|].
  assert (Hel : (inject_Z d <= clock w' (ticks w') - start_time p)%Q).
  { rewrite Hc.
    pose proof (Hmono (Nat.pred (ticks w')) (ticks w') ltac:(lia)) as Hm.
    lra. }
  assert (Hnz : Qeq_bool (clock w' (ticks w') - start_time p) 0 = false).
  { destruct (Qeq_bool _ 0) eqn:E; [|reflexivity].
    apply Qeq_bool_iff in E. rewrite E in Hel.
    assert (inject_Z 0 < inject_Z d)%Q by (rewrite <- Zlt_Qlt; exact Hpos).
    change (inject_Z 0) with 0%Q in *.
    lra. }
  rewrite Teardown.epilogue_unfold. cbv zeta. rewrite Hack.
  replace (bytes_eqb ACK_BYE ACK_BYE) with true by reflexivity.
  rewrite Hnz. cbn [fst snd trace].
  do 3 eexists. split; [reflexivity|]. split.
  - rewrite <- app_assoc. reflexivity.
  - exact Hel.
Qed.

Lemma duration_is_served_witness :
  (forall i j, (i <= j)%nat ->
               (clock Samples.world0 i <= clock Samples.world0 j)%Q) /\
  exists v' w',
    send_loop 10 Samples.by_time Samples.vars0 Samples.world0 = Some (v', w') /\
    (start_time Samples.by_time + inject_Z 3
     <= clock Samples.world0 (Nat.pred (ticks w')))%Q /\
    exists elapsed total bw,
      fst (epilogue Samples.acking Samples.by_time v' w') = Returned tt /\
      trace (snd (epilogue Samples.acking Samples.by_time v' w'))
      = trace w' ++
        [Sleep 6; Sendall BYE; Print Rule; Print Header;
         Print (Summary "127.0.0.1" 50000 elapsed total "MB" bw)] /\
      (inject_Z 3 <= elapsed)%Q.
Proof.
  assert (Hmono : forall i j, (i <= j)%nat ->
            (clock Samples.world0 i <= clock Samples.world0 j)%Q).
  { intros i j Hij. cbn [clock Samples.world0]. unfold Samples.steady_clock.
    rewrite <- Zle_Qle. lia. }
  split; [exact Hmono|].
  do 2 eexists. split; [reflexivity|].
  exact (duration_is_served Samples.acking Samples.by_time 3 Samples.vars0
           Samples.world0 10%nat _ _ eq_refl eq_refl eq_refl Hmono eq_refl
           eq_refl).
Defined.

(** X11.  The shape of a session whose connection was made and whose
    loop has ended: the two connection lines and the START line, then only
    chunks of 1 to 1000 filler bytes and interval reports, then the sleep
    and the marker, sent once and after all data, and then either nothing
    or the three lines of the final summary, whose byte column is the sum
    of the chunks sent divided by the format's unit.  The session returns,
    stays blocked waiting for the acknowledgment, or raises
    [ZeroDivisionError]; it raises nothing else. *)
Theorem session_trace (fuel : nat) (n : net) (server_ip : string) (port : Z)
    (num_bytes duration : option Z) (format : string) (interval : option Z)
    (connection_id : Z) (w : world) (o : outcome unit) (w' : world) :
  connect_ok n = true ->
  client fuel n server_ip port num_bytes duration format interval
         connection_id w = Some (o, w') ->
  exists evs tail,
    trace w'
    = trace w ++
      [Print (Connecting connection_id server_ip port);
       Connect server_ip port;
       Print (Connected connection_id server_ip port);
       SendStart (clock w (ticks w))] ++
      evs ++ [Sleep 6; Sendall BYE] ++ tail /\
    Forall loop_event evs /\
    (tail = [] \/
     exists elapsed total bw,
       tail = [Print Rule; Print Header;
               Print (Summary (fst (sockname n)) (snd (sockname n)) elapsed
                        total format bw)] /\
       (total * summary_unit format == inject_Z (sum (sent_sizes evs)))%Q) /\
    (o = Returned tt \/ o = Blocked \/ o = Raised ZeroDivisionError).
Proof.
  intros Hok H. rewrite client_unfold in H by assumption. cbv zeta in H.
  set (p := mkParams _ _ _ _ _ _ _ _ _ _) in H.
  set (w1 := mkWorld _ _ _ _) in H.
  destruct (send_loop fuel p _ w1) as [[v' w2]|] eqn:Hloop; [|discriminate].
  apply send_loop_spec in Hloop as (evs & Htr & Hall & Hsum & _);
    [|cbn; lia].
  cbn [total_sent] in Hsum. rewrite Z.sub_0_r in Hsum.
  destruct (epilogue_trace n p v' w2) as (tail & Hte & Htail & Ho).
  injection H as H. rewrite H in Hte, Ho. cbn [fst snd] in Hte, Ho.
  exists evs, tail. split; [|split; [exact Hall|split; [|exact Ho]]].
  - rewrite Hte, Htr. subst w1. cbn [trace].
    rewrite <- !app_assoc. reflexivity.
  - destruct Htail as [->|(elapsed & bw & ->)]; [now left|right].
    do 3 eexists. split; [reflexivity|].
    subst p. cbn [Client.format]. rewrite Hsum.
    unfold convert_total, summary_unit.
    destruct (String.eqb format "KB"); [|destruct (String.eqb format "MB")];
      field.
Qed.

Lemma session_trace_witness :
  let w' :=
    mkWorld Samples.slow_clock 2
      [Print (Connecting 1 "127.0.0.1" 8088);
       Connect "127.0.0.1" 8088;
       Print (Connected 1 "127.0.0.1" 8088);
       SendStart 0;
       Sendall (zeros 1000); Sendall (zeros 1000); Sendall (zeros 500);
       Sleep 6; Sendall BYE;
       Print Rule; Print Header;
       Print (Summary "127.0.0.1" 50000 (8 - 0) (2500 / 1000) "KB"
                (2500 / (8 - 0) / 1000))] 0 in
  connect_ok Samples.acking = true /\
  client 10 Samples.acking "127.0.0.1" 8088 (Some 2500) None "KB" None 1
         (mkWorld Samples.slow_clock 0 [] 0) = Some (Returned tt, w') /\
  exists evs tail,
    trace w'
    = [] ++
      [Print (Connecting 1 "127.0.0.1" 8088);
       Connect "127.0.0.1" 8088;
       Print (Connected 1 "127.0.0.1" 8088);
       SendStart (Samples.slow_clock 0)] ++
      evs ++ [Sleep 6; Sendall BYE] ++ tail /\
    Forall loop_event evs /\
    (tail = [] \/
     exists elapsed total bw,
       tail = [Print Rule; Print Header;
               Print (Summary "127.0.0.1" 50000 elapsed total "KB" bw)] /\
       (total * summary_unit "KB" == inject_Z (sum (sent_sizes evs)))%Q) /\
    (Returned tt = Returned tt \/ Returned tt = Blocked \/
     Returned tt = Raised ZeroDivisionError).
Proof.
  intros w'.
  assert (H : client 10 Samples.acking "127.0.0.1" 8088 (Some 2500) None "KB"
                     None 1 (mkWorld Samples.slow_clock 0 [] 0)
              = Some (Returned tt, w')) by reflexivity.
  split; [reflexivity|]. split; [exact H|].
  exact (session_trace 10 Samples.acking "127.0.0.1" 8088 (Some 2500) None
           "KB" None 1 (mkWorld Samples.slow_clock 0 [] 0) (Returned tt) w'
           eq_refl H).
Defined.

(** X12.  A byte budget that is zero or negative (which [num_bytes] lets
    through) makes a session that sends no data at all: after the START
    line come the sleep and the marker at once, with any fuel, and the
    final summary, if the peer acknowledges, shows 0 bytes. *)
Theorem nonpositive_budget_sends_nothing (fuel : nat) (n : net)
    (server_ip : string) (port : Z) (budget : Z) (duration : option Z)
    (format : string) (interval : option Z) (connection_id : Z) (w : world) :
  budget <= 0 ->
  connect_ok n = true ->
  exists o w' tail,
    client (S fuel) n server_ip port (Some budget) duration format interval
           connection_id w = Some (o, w') /\
    trace w'
    = trace w ++
      [Print (Connecting connection_id server_ip port);
       Connect server_ip port;
       Print (Connected connection_id server_ip port);
       SendStart (clock w (ticks w));
       Sleep 6; Sendall BYE] ++ tail /\
    (tail = [] \/
     exists elapsed total bw,
       tail = [Print Rule; Print Header;
               Print (Summary (fst (sockname n)) (snd (sockname n)) elapsed
                        total format bw)] /\
       (total == 0)%Q).
Proof.
  intros Hle Hok. rewrite client_unfold by assumption. cbv zeta.
  set (p := mkParams _ _ _ _ _ _ _ _ _ _).
  set (w1 := mkWorld _ _ _ _).
  unfold send_loop. cbn [num_bytes p]. cbn [while].
  rewrite iter_num_stops by (cbn; lia).
  destruct (epilogue_trace n p (mkVars 0 0 (clock w (ticks w))) w1)
    as (tail & Hte & Htail & _).
  destruct (epilogue n p _ w1) as [o w'] eqn:He. cbn [snd] in Hte.
  exists o, w', tail. split; [reflexivity|]. split.
  - rewrite Hte. subst w1. cbn [trace]. rewrite <- !app_assoc. reflexivity.
  - destruct Htail as [->|(elapsed & bw & ->)]; [now left|right].
    do 3 eexists. split; [reflexivity|].
    subst p. cbn [Client.format total_sent]. unfold convert_total.
    destruct (String.eqb format "KB"); [|destruct (String.eqb format "MB")];
      reflexivity.
Qed.

Lemma nonpositive_budget_sends_nothing_witness :
  -5 <= 0 /\ connect_ok Samples.acking = true /\
  exists o w' tail,
    client 1 Samples.acking "127.0.0.1" 8088 (Some (-5)) None "B" None 1
           (mkWorld Samples.slow_clock 0 [] 0) = Some (o, w') /\
    trace w'
    = [] ++
      [Print (Connecting 1 "127.0.0.1" 8088);
       Connect "127.0.0.1" 8088;
       Print (Connected 1 "127.0.0.1" 8088);
       SendStart (Samples.slow_clock 0);
       Sleep 6; Sendall BYE] ++ tail /\
    (tail = [] \/
     exists elapsed total bw,
       tail = [Print Rule; Print Header;
               Print (Summary "127.0.0.1" 50000 elapsed total "B" bw)] /\
       (total == 0)%Q).
Proof.
  split; [lia|]. split; [reflexivity|].
  exact (nonpositive_budget_sends_nothing 0 Samples.acking "127.0.0.1" 8088
           (-5) None "B" None 1 (mkWorld Samples.slow_clock 0 [] 0)
           ltac:(lia) eq_refl).
Defined.

(** X13.  A session whose connection fails raises the error of
    [s.connect] with any fuel, having printed its first line and done
    nothing else: it sends nothing and never reads the clock.  Once every
    sibling has finished, the run ends with an exception, whatever the
    siblings did. *)
Theorem refused_connection (fuel : nat) (n : net) (server_ip : string)
    (port : Z) (num_bytes duration : option Z) (format : string)
    (interval : option Z) (connection_id : Z) (w : world) :
  connect_ok n = false ->
  client fuel n server_ip port num_bytes duration format interval
         connection_id w
  = Some (Raised ConnectionRefusedError,
          mkWorld (clock w) (ticks w)
            (trace w ++
             [Print (Connecting connection_id server_ip port);
              Connect server_ip port])
            (fn_prev_total_sent w)) /\
  forall rs1 rs2,
    forallb Main.finished (rs1 ++ rs2) = true ->
    exists e,
      Main.wait_all
        (rs1 ++
         client fuel n server_ip port num_bytes duration format interval
                connection_id w :: rs2)
      = Raised e.
Proof.
  intros Hno.
  assert (H : client fuel n server_ip port num_bytes duration format interval
                     connection_id w
              = Some (Raised ConnectionRefusedError,
                      mkWorld (clock w) (ticks w)
                        (trace w ++
                         [Print (Connecting connection_id server_ip port);
                          Connect server_ip port])
                        (fn_prev_total_sent w))).
  { unfold client. rewrite prologue_unfold. cbv zeta. now rewrite Hno. }
  split; [exact H|]. rewrite H. intros rs1 rs2 Hfin.
  unfold Main.wait_all. rewrite forallb_app in *.
  cbn [forallb Main.finished]. apply andb_true_iff in Hfin as [-> ->].
  cbn [andb].
  induction rs1 as [|[[[[]|e|] w1]|] rs1 IH]; cbn [app Main.first_raised];
    eauto.
Qed.

Lemma refused_connection_witness :
  connect_ok (mkNet false ("", 0) None) = false /\
  client 0 (mkNet false ("", 0) None) "127.0.0.1" 8088 None (Some 25) "MB"
         None 1 (mkWorld Samples.steady_clock 0 [] 0)
  = Some (Raised ConnectionRefusedError,
          mkWorld Samples.steady_clock 0
            ([] ++
             [Print (Connecting 1 "127.0.0.1" 8088);
              Connect "127.0.0.1" 8088]) 0) /\
  forall rs1 rs2,
    forallb Main.finished (rs1 ++ rs2) = true ->
    exists e,
      Main.wait_all
        (rs1 ++
         client 0 (mkNet false ("", 0) None) "127.0.0.1" 8088 None (Some 25)
                "MB" None 1 (mkWorld Samples.steady_clock 0 [] 0) :: rs2)
      = Raised e.
Proof.
  split; [reflexivity|].
  exact (refused_connection 0 (mkNet false ("", 0) None) "127.0.0.1" 8088
           None (Some 25) "MB" None 1 (mkWorld Samples.steady_clock 0 [] 0)
           eq_refl).
Defined.

End Sessions.

(** ** From the client's socket to the server's *)

Module WireFacts.
Import Client ClientFacts Reporting LoopFacts SessionFacts.

Lemma wire_app (encode_start : Q -> bytes) (t1 t2 : list event) :
  Wire.wire encode_start (t1 ++ t2)
  = Wire.wire encode_start t1 ++ Wire.wire encode_start t2.
Proof. unfold Wire.wire. apply flat_map_app. Qed.

(** A chunk of filler is never mistaken for the marker. *)
Lemma plain_zeros (k : Z) : 0 < k <= 1000 -> Server.plain (zeros k).
Proof.
  intros Hk. unfold Server.plain, zeros. rewrite repeat_length. split; [lia|].
  destruct (Z.to_nat k) as [|m] eqn:E; [lia|]. discriminate.
Qed.

Lemma wire_loop (encode_start : Q -> bytes) (evs : list event) :
  Forall loop_event evs ->
  Forall Server.plain (Wire.wire encode_start evs) /\
  Server.total_len (Wire.wire encode_start evs) = sum (sent_sizes evs).
Proof.
  induction 1 as [|e evs He _ [IH1 IH2]]; [split; [constructor | reflexivity]|].
  destruct e as [| |data| |[]]; try contradiction.
  - destruct He as (k & Hk & ->). split.
    + constructor; [now apply plain_zeros | exact IH1].
    + cbn [Wire.wire flat_map app]. fold (Wire.wire encode_start evs).
      rewrite sent_sizes_cons_send, sum_cons, <- IH2. reflexivity.
  - split; assumption.
Qed.

End WireFacts.

Module EndToEnd.
Import Client ClientFacts Reporting LoopFacts SessionFacts WireFacts.

(** X14.  One session against one server.  When every [sendall] of a
    byte-count session with a positive budget arrives at the server as a
    segment of its own, the server's receive loop ends and counts the START
    line, the whole budget and the marker: [len(START line) + num_bytes +
    3], where the client's own count is [num_bytes]. *)
Theorem server_counts_session (encode_start : Q -> bytes) (fuel : nat)
    (n : net) (server_ip : string) (port : Z) (budget : Z)
    (duration : option Z) (format : string) (interval : option Z)
    (connection_id : Z) (w : world) :
  0 < budget ->
  connect_ok n = true ->
  trace w = [] ->
  (Z.to_nat budget < fuel)%nat ->
  Server.plain (encode_start (clock w (ticks w))) ->
  exists o w',
    client fuel n server_ip port (Some budget) duration format interval
           connection_id w = Some (o, w') /\
    Server.recv_loop
      (List.length (Wire.wire encode_start (trace w')))
      (Server.mkConn (Wire.wire encode_start (trace w')) []) 0
    = Some (len (encode_start (clock w (ticks w))) + budget + 3,
            Server.mkConn [] [ACK_BYE]).
Proof.
  intros Hpos Hok Hempty Hfuel Hstart.
  rewrite client_unfold by assumption. cbv zeta.
  set (p := mkParams _ _ _ _ _ _ _ _ _ _).
  set (v0 := mkVars 0 0 _). set (w1 := mkWorld _ _ _ _).
  destruct (while_num_ends p budget v0 w1 fuel Hpos eq_refl Hfuel)
    as (v' & w2 & Hloop & Htotal).
  assert (Hsend : send_loop fuel p v0 w1 = Some (v', w2)) by exact Hloop.
  rewrite Hsend.
  apply send_loop_spec in Hsend as (evs & Htr & Hall & Hsum & _);
    [|cbn; lia].
  rewrite Htotal in Hsum. cbn [total_sent v0] in Hsum.
  rewrite Z.sub_0_r in Hsum.
  destruct (epilogue_trace n p v' w2) as (tail & Hte & Htail & _).
  destruct (epilogue n p v' w2) as [o w'] eqn:He. cbn [snd] in Hte.
  exists o, w'. split; [reflexivity|].
  destruct (wire_loop encode_start evs Hall) as [Hplain Hlen].
  assert (Hwire : Wire.wire encode_start (trace w')
                  = (encode_start (clock w (ticks w))
                     :: Wire.wire encode_start evs) ++ [BYE]).
  { rewrite Hte, Htr. subst w1. cbn [trace]. rewrite Hempty.
    rewrite !wire_app.
    destruct Htail as [->|(elapsed & bw & ->)]; cbn [app Wire.wire flat_map];
      rewrite ?app_nil_r; reflexivity. }
  rewrite Hwire.
  set (payload := encode_start (clock w (ticks w))
                  :: Wire.wire encode_start evs).
  assert (Hpl : Forall Server.plain payload) by (now constructor).
  rewrite length_app. cbn [List.length].
  rewrite (ServerFacts.recv_loop_payload payload Hpl 1 [BYE] [] 0).
  cbn [Server.recv_loop].
  rewrite ServerFacts.recv_short by (simpl; lia).
  replace (bytes_eqb BYE BYE) with true by reflexivity.
  unfold Server.sendall. cbn [Server.inbox Server.outbox app].
  subst payload. rewrite ReceiveFacts.total_len_cons, Hlen, Hsum.
  change (len BYE) with 3. do 2 f_equal; lia.
Qed.

Lemma server_counts_session_witness :
  Server.plain (Wire.start_line 0) /\
  exists o w',
    client 2501 Samples.acking "127.0.0.1" 8088 (Some 2500) None "MB" None 1
           (mkWorld Samples.slow_clock 0 [] 0) = Some (o, w') /\
    Server.recv_loop
      (List.length (Wire.wire Wire.start_line (trace w')))
      (Server.mkConn (Wire.wire Wire.start_line (trace w')) []) 0
    = Some (len (Wire.start_line 0) + 2500 + 3, Server.mkConn [] [ACK_BYE]).
Proof.
  assert (Hstart : Server.plain (Wire.start_line 0)).
  { split; [simpl; lia | discriminate]. }
  split; [exact Hstart|].
  exact (server_counts_session Wire.start_line 2501 Samples.acking
           "127.0.0.1" 8088 2500 None "MB" None 1
           (mkWorld Samples.slow_clock 0 [] 0)
           ltac:(lia) eq_refl eq_refl ltac:(lia) Hstart).
Defined.

End EndToEnd.

(** ** The orchestrator *)

Module MainFacts.
Import Main.

(** An accepted client run. *)
Lemma main_client (fuel : nat) (env : Z -> Client.net * Client.world)
    (a : args) :
  server a = false ->
  client a = true ->
  num a = None \/ time a = None ->
  main fuel env a
  = let time' := match num a, time a with
                 | None, None => Some 25
                 | _, _ => time a
                 end in
    let futures :=
      map (fun i =>
             Client.client fuel (fst (env (i + 1))) (serverip a) (port a)
               (num a) time' (format a) (interval a) (i + 1)
               (snd (env (i + 1))))
          (range (connections a)) in
    mkRun [] None futures (wait_all futures).
Proof.
  intros Hs Hc Hone. unfold main. rewrite Hs, Hc. cbn [negb andb].
  destruct (num a), (time a); try reflexivity.
  destruct Hone; discriminate.
Qed.

Lemma first_raised_not_blocked
    (rs : list (option (outcome unit * Client.world))) :
  first_raised rs <> Blocked.
Proof.
  induction rs as [|[[[[]|e|] w]|] rs IH]; cbn [first_raised];
    try assumption; discriminate.
Qed.

Lemma first_raised_returned
    (rs : list (option (outcome unit * Client.world))) :
  forallb finished rs = true ->
  (first_raised rs = Returned tt
   <-> forall s, In s rs -> exists w, s = Some (Returned tt, w)).
Proof.
  induction rs as [|[[[[]|e|] w]|] rs IH]; cbn [forallb finished andb];
    intros Hfin; try discriminate; cbn [first_raised].
  - split; [intros _ s [] | reflexivity].
  - rewrite (IH Hfin). split.
    + intros H s [<-|Hin]; [eauto | now apply H].
    + intros H s Hin. apply H. now right.
  - split; [discriminate|]. intros H.
    destruct (H _ (or_introl eq_refl)) as [w' Hw]. discriminate.
Qed.

Lemma first_raised_in (rs : list (option (outcome unit * Client.world)))
    (e : exn) :
  first_raised rs = Raised e -> exists w, In (Some (Raised e, w)) rs.
Proof.
  induction rs as [|[[[[]|e'|] w]|] rs IH]; cbn [first_raised]; intros H;
    try discriminate;
    try (destruct (IH H) as [w' Hin]; exists w'; now right).
  injection H as ->. exists w. now left.
Qed.

Lemma forallb_finished_false
    (rs : list (option (outcome unit * Client.world))) :
  forallb finished rs = false <-> exists s, In s rs /\ finished s = false.
Proof.
  induction rs as [|s rs IH]; cbn [forallb].
  - split; [discriminate | intros [s [[] _]]].
  - rewrite andb_false_iff, IH. split.
    + intros [H|[s' [Hin H]]]; [exists s; split; [now left | exact H]|].
      exists s'. split; [now right | exact H].
    + intros [s' [[<-|Hin] H]]; [now left | right; eauto].
Qed.

End MainFacts.

Module Orchestration.
Import Main MainFacts.

(** X15.  How an accepted client run ends.  It never ends exactly when
    some session never finishes; it ends with status 0 exactly when every
    session returned; and it ends with status 1 exactly when every session
    finished and at least one raised: the failure of one session is seen
    only after all the others are over, and does not stop them. *)
Theorem client_run_exit_status (fuel : nat)
    (env : Z -> Client.net * Client.world) (a : args) :
  server a = false ->
  client a = true ->
  num a = None \/ time a = None ->
  let r := main fuel env a in
  (exit_status r = None
   <-> exists s, In s (sessions r) /\ finished s = false) /\
  (exit_status r = Some 0
   <-> forall s, In s (sessions r) -> exists w, s = Some (Returned tt, w)) /\
  (exit_status r = Some 1
   <-> forallb finished (sessions r) = true /\
       exists e w, In (Some (Raised e, w)) (sessions r)).
Proof.
  intros Hs Hc Hone r. subst r.
  rewrite (main_client fuel env a Hs Hc Hone). cbv zeta.
  set (rs := map _ _). unfold exit_status. cbn [status sessions].
  unfold wait_all. destruct (forallb finished rs) eqn:Hfin.
  - pose proof (first_raised_not_blocked rs) as Hnb.
    pose proof (first_raised_returned rs Hfin) as Hret.
    pose proof (first_raised_in rs) as Hin.
    destruct (first_raised rs) as [[]|e|]; [| |contradiction].
    + split; [|split].
      * split; [discriminate|]. intros (s & Hs' & Hf).
        rewrite forallb_forall in Hfin. rewrite (Hfin s Hs') in Hf.
        discriminate.
      * split; [intros _; now apply Hret | reflexivity].
      * split; [discriminate|]. intros [_ (e & w & Hw)].
        destruct (proj1 Hret eq_refl _ Hw) as [w' Hw']. discriminate.
    + split; [|split].
      * split; [discriminate|]. intros (s & Hs' & Hf).
        rewrite forallb_forall in Hfin. rewrite (Hfin s Hs') in Hf.
        discriminate.
      * split; [discriminate|]. intros H. apply Hret in H. discriminate.
      * split; [|reflexivity]. intros _. split; [reflexivity|].
        destruct (Hin e eq_refl) as [w Hw]. eauto.
  - split; [|split].
    + split; [|reflexivity]. intros _. now apply forallb_finished_false.
    + split; [discriminate|]. intros H.
      apply forallb_finished_false in Hfin as (s & Hs' & Hf).
      destruct (H s Hs') as [w ->]. discriminate.
    + split; [discriminate | intros [H _]; discriminate].
Qed.

Lemma client_run_exit_status_witness :
  let r := main 10 (Samples.facing Samples.acking)
             (Samples.client_args (Some 5) None) in
  (exit_status r = None
   <-> exists s, In s (sessions r) /\ finished s = false) /\
  (exit_status r = Some 0
   <-> forall s, In s (sessions r) -> exists w, s = Some (Returned tt, w)) /\
  (exit_status r = Some 1
   <-> forallb finished (sessions r) = true /\
       exists e w, In (Some (Raised e, w)) (sessions r)).
Proof.
  exact (client_run_exit_status 10 (Samples.facing Samples.acking)
           (Samples.client_args (Some 5) None) eq_refl eq_refl
           (or_intror eq_refl)).
Defined.

(** X16.  An accepted client run submits exactly [connections] sessions.
    The [k]-th of them (from 0) is [client] with connection id [k + 1],
    the server address, port, byte budget, format and interval of the
    command line, and the duration of the command line, or 25 seconds when
    neither a budget nor a duration was given. *)
Theorem main_submits (fuel : nat) (env : Z -> Client.net * Client.world)
    (a : args) :
  server a = false ->
  client a = true ->
  num a = None \/ time a = None ->
  List.length (sessions (main fuel env a)) = Z.to_nat (connections a) /\
  forall k,
    (k < Z.to_nat (connections a))%nat ->
    nth_error (sessions (main fuel env a)) k
    = Some (Client.client fuel (fst (env (Z.of_nat k + 1))) (serverip a)
              (port a) (num a)
              (match num a, time a with
               | None, None => Some 25
               | _, _ => time a
               end)
              (format a) (interval a) (Z.of_nat k + 1)
              (snd (env (Z.of_nat k + 1)))).
Proof.
  intros Hs Hc Hone.
  rewrite (main_client fuel env a Hs Hc Hone). cbv zeta. cbn [sessions].
  unfold range. split.
  - now rewrite !length_map, length_seq.
  - intros k Hk. rewrite !nth_error_map, nth_error_seq.
    apply Nat.ltb_lt in Hk. rewrite Hk. reflexivity.
Qed.

Lemma main_submits_witness :
  let a := Main.mkArgs false "" 8088 "MB" None true "127.0.0.1" None None 3 in
  List.length (sessions (main 10 (Samples.facing Samples.acking) a))
  = Z.to_nat 3 /\
  forall k,
    (k < Z.to_nat 3)%nat ->
    nth_error (sessions (main 10 (Samples.facing Samples.acking) a)) k
    = Some (Client.client 10 Samples.acking "127.0.0.1" 8088 None (Some 25)
              "MB" None (Z.of_nat k + 1)
              (Client.mkWorld Samples.slow_clock 0 [] 0)).
Proof.
  exact (main_submits 10 (Samples.facing Samples.acking)
           (Main.mkArgs false "" 8088 "MB" None true "127.0.0.1" None None 3)
           eq_refl eq_refl (or_introl eq_refl)).
Defined.

End Orchestration.
